(** * FIR legal analysis client: a shallow embedding of the React front end

    The development follows the three source units of the client:
    - [ResultsContent.tsx]  (tab selection and the section renderers),
    - [UploadPage]          (file selection and the upload handler),
    - [ResultsPage]         (results fetch, additional sections, download).

    JavaScript values are embedded by their TypeScript types: an optional
    field is an [option], an array is a [list], a [Record<string,string>]
    is the list of its [Object.entries], and a heap object that is compared
    with [===] carries its address. *)

From stdpp Require Import prelude strings.
From Stdlib Require Import ZArith Init.Byte Strings.Ascii.

Local Open Scope string_scope.
Local Open Scope list_scope.

(** ** JavaScript primitives used by the client *)

Module Js.

(** Truthiness of the value kinds that occur in conditions. *)
Definition truthy_string (s : string) : bool := negb (String.eqb s "").
Definition truthy_number (n : nat) : bool := negb (Nat.eqb n 0).

(** An optional object or array ([T | undefined]): any object is truthy. *)
Definition truthy_object {A} (o : option A) : bool :=
  match o with Some _ => true | None => false end.

(** An optional string: [undefined] and the empty string are falsy. *)
Definition truthy_opt_string (o : option string) : bool :=
  match o with Some s => truthy_string s | None => false end.

(** [arr?.length] used as a condition: [undefined] or [0] are falsy. *)
Definition truthy_opt_length {A} (o : option (list A)) : bool :=
  match o with Some l => truthy_number (length l) | None => false end.

(** [a || b] on strings, where [a] may be [undefined]. *)
Definition or_default (a : option string) (b : string) : string :=
  match a with
  | Some s => if truthy_string s then s else b
  | None => b
  end.

(** Strict equality [===]. Strings compare by value, objects by address. *)
Class StrictEq (A : Type) := strict_eq : A -> A -> bool.

#[export] Instance string_strict_eq : StrictEq string := String.eqb.

Record Obj (T : Type) := mkObj { addr : nat; fields : T }.
Arguments mkObj {T} _ _.
Arguments addr {T} _.
Arguments fields {T} _.

#[export] Instance obj_strict_eq {T} : StrictEq (Obj T) :=
  fun a b => Nat.eqb (addr a) (addr b).

(** [Array.prototype.filter] with a callback [(element, index) => bool]. *)
Fixpoint filter_from {A} (p : A -> nat -> bool) (idx : nat) (l : list A)
  : list A :=
  match l with
  | [] => []
  | x :: l' =>
      if p x idx then x :: filter_from p (S idx) l'
      else filter_from p (S idx) l'
  end.

Definition Array_filter {A} (p : A -> nat -> bool) (l : list A) : list A :=
  filter_from p 0 l.

(** [Array.prototype.indexOf]: first index holding a [===] element, or -1. *)
Fixpoint indexOf_from {A} `{StrictEq A} (x : A) (idx : Z) (l : list A) : Z :=
  match l with
  | [] => (-1)%Z
  | y :: l' => if strict_eq y x then idx else indexOf_from x (idx + 1)%Z l'
  end.

Definition Array_indexOf {A} `{StrictEq A} (l : list A) (x : A) : Z :=
  indexOf_from x 0%Z l.

(** [Array.prototype.includes] on an array of strings. *)
Definition Array_includes (l : list string) (x : string) : bool :=
  existsb (fun y => String.eqb y x) l.

(** [Array.prototype.join]. *)
Definition Array_join (sep : string) (l : list string) : string :=
  String.concat sep l.

(** [s.replace(/_/g, ' ')]. *)
Fixpoint replace_underscores (s : string) : string :=
  match s with
  | EmptyString => EmptyString
  | String c s' =>
      String (if Ascii.eqb c "_"%char then " "%char else c)
             (replace_underscores s')
  end.

End Js.

Import Js.

(** ** Two-column layout shared by the section renderers

    Every two-column section computes
    [list.filter((_, idx) => idx % 2 === 0)] and
    [list.filter((_, idx) => idx % 2 === 1)]. *)

Definition leftColumn {A} (l : list A) : list A :=
  Array_filter (fun _ idx => Nat.eqb (idx mod 2) 0) l.

Definition rightColumn {A} (l : list A) : list A :=
  Array_filter (fun _ idx => Nat.eqb (idx mod 2) 1) l.

(** Reading the two columns alternately, left first. *)
Fixpoint interleave {A} (xs ys : list A) : list A :=
  match xs, ys with
  | [], _ => ys
  | _ :: _, [] => xs
  | x :: xs', y :: ys' => x :: y :: interleave xs' ys'
  end.

(** ** Libraries the client calls

    [marked.parse] (npm package marked) and [JSON.stringify] are not part of
    the repository; the development is parametric in them. *)

Class Marked := marked_parse : string -> string.
Class JsonCodec := JSON_stringify : list string -> string.

(** ** The workflow state returned by [GET /api/results/{workflow_id}] *)

Module StatuteSection.
Record t := mk {
  section_number : string;
  section_description : string;
  why_section_is_relevant : string;
  source : option string }.
End StatuteSection.

Module PlanPoint.
Record t := mk {
  title : string;
  date_range : option string;
  description : string }.
End PlanPoint.

Module Timeline.
Record t := mk { date_string : string; timeline : string }.
End Timeline.

Module HistoricalCase.
Record t := mk { title : string; url : option string; summary : string }.
End HistoricalCase.

Module DefenceRebuttal.
Record t := mk { defence_perspective : list string; rebuttal : list string }.
End DefenceRebuttal.

Module CourtSummary.
Record t := mk {
  case_title : string;
  ndps_sections : list string;
  core_issue : string;
  date_and_place : string;
  recovery : string;
  quantity : string;
  safeguards : list string;
  conscious_possession_proven : list string;
  procedural_compliance : list string;
  legal_position : list string;
  judicial_balance : string;
  prosecution_prayer : list string }.
End CourtSummary.

Module Chargesheet.
Record t := mk {
  case_title : string;
  ndps_sections : list string;
  bns_sections : list string;
  bnss_sections : list string;
  bsa_sections : list string;
  core_issue : string;
  date_and_place : string;
  recovery : string;
  quantity : string;
  safeguards : list string;
  conscious_possession_proven : list string;
  procedural_compliance : list string;
  legal_position : list string;
  judicial_balance : string;
  prosecution_prayer : list string }.
End Chargesheet.

Module Stats.
Record t := mk {
  ndps_count : Z;
  bns_count : Z;
  bnss_count : Z;
  bsa_count : Z;
  next_steps_count : Z }.
End Stats.

Module WorkflowState.
Record t := mk {
  workflow_id : option string;
  pdf_filename : option string;
  fir_facts : option (list (string * string));
  ndps_sections : option (list (Obj StatuteSection.t));
  bns_sections : option (list (Obj StatuteSection.t));
  bnss_sections : option (list (Obj StatuteSection.t));
  bsa_sections : option (list (Obj StatuteSection.t));
  investigation_plan : option (list (Obj PlanPoint.t));
  investigation_and_legal_timeline : option Timeline.t;
  evidence_checklist : option string;
  dos : option (list string);
  donts : option (list string);
  potential_prosecution_weaknesses : option (list (string * string));
  next_steps : option (list string);
  historical_cases : option (list (Obj HistoricalCase.t));
  defence_perspective_rebuttal : option (list DefenceRebuttal.t);
  summary_for_the_court : option CourtSummary.t;
  chargesheet : option Chargesheet.t;
  sections : option (list string);
  stats : option Stats.t }.

(** The payload [{}]: every optional field absent. *)
Definition empty : t :=
  mk None None None None None None None None None None
     None None None None None None None None None None.
End WorkflowState.

(** ** What a section puts on the screen

    Only the data-bearing leaves of the JSX are kept. [Text] is a React text
    child (shown verbatim), [InnerHTML] is [dangerouslySetInnerHTML]. *)

Inductive Key := KeyStr (s : string) | KeyNum (n : Z).

Inductive Leaf :=
| Text (s : string)
| InnerHTML (html : string)
| Num (n : Z)
| Anchor (href : string) (text : string).

Record Card := mkCard { key : Key; content : list Leaf }.

Inductive View :=
| ColumnsView (heading : string) (left right : list Card)
| ListView (heading : string) (items : list Card)
| BlockView (heading : string) (body : list Leaf).

Definition left_cards (v : View) : list Card :=
  match v with ColumnsView _ l _ => l | _ => [] end.

Definition right_cards (v : View) : list Card :=
  match v with ColumnsView _ _ r => r | _ => [] end.

Definition view_cards (v : View) : list Card :=
  match v with
  | ColumnsView _ l r => l ++ r
  | ListView _ items => items
  | BlockView _ _ => []
  end.

Definition view_leaves (v : View) : list Leaf :=
  match v with
  | BlockView _ body => body
  | _ => view_cards v ≫= content
  end.

(** The numbers a card shows. *)
Definition leaf_number (l : Leaf) : option Z :=
  match l with Num n => Some n | _ => None end.

Definition card_numbers (c : Card) : list Z := omap leaf_number (content c).

(** [cond && <jsx/>] for an optional string [cond]. *)
Definition when_string (o : option string) (f : string -> list Leaf)
  : list Leaf :=
  match o with
  | Some s => if truthy_string s then f s else []
  | None => []
  end.

(** ** components/ResultsContent.tsx *)

Module ResultsContent.
Import WorkflowState.

(** Map section IDs to tab IDs. *)
Definition SECTION_TO_TAB_MAP : list (string * string) :=
  [ ("ndps", "ndps"); ("bns", "bns"); ("bnss", "bnss"); ("bsa", "bsa");
    ("investigation_plan", "investigation"); ("timeline", "timeline");
    ("historical_cases", "historical"); ("evidence", "evidence");
    ("dos_and_donts", "dos-donts"); ("weaknesses", "weaknesses");
    ("defence_rebuttal", "defence-rebuttal");
    ("court_summary", "court-summary"); ("chargesheet", "chargesheet") ].

(** A tab descriptor. [condition] is the truthiness of the JavaScript
    value stored in the field of that name; the icon is left out. *)
Record Tab := mkTab {
  id : string;
  label : string;
  condition : bool;
  sectionId : option string }.

Definition allTabs (state : WorkflowState.t) : list Tab :=
  [ mkTab "fir-facts" "FIR Facts" (truthy_object (fir_facts state)) None;
    mkTab "ndps" "NDPS Act"
      (truthy_opt_length (ndps_sections state)) (Some "ndps");
    mkTab "bns" "BNS"
      (truthy_opt_length (bns_sections state)) (Some "bns");
    mkTab "bnss" "BNSS"
      (truthy_opt_length (bnss_sections state)) (Some "bnss");
    mkTab "bsa" "BSA"
      (truthy_opt_length (bsa_sections state)) (Some "bsa");
    mkTab "investigation" "Investigation Plan"
      (truthy_opt_length (investigation_plan state))
      (Some "investigation_plan");
    mkTab "timeline" "Timeline"
      (truthy_object (investigation_and_legal_timeline state))
      (Some "timeline");
    mkTab "evidence" "Evidence"
      (truthy_opt_string (evidence_checklist state)) (Some "evidence");
    mkTab "dos-donts" "Do's & Don'ts"
      (truthy_object (dos state) && truthy_object (donts state))
      (Some "dos_and_donts");
    mkTab "weaknesses" "Weaknesses"
      (truthy_object (potential_prosecution_weaknesses state))
      (Some "weaknesses");
    mkTab "defence-rebuttal" "Defence & Rebuttal"
      (truthy_opt_length (defence_perspective_rebuttal state))
      (Some "defence_rebuttal");
    mkTab "court-summary" "Summary for Court"
      (truthy_object (summary_for_the_court state)) (Some "court_summary");
    mkTab "chargesheet" "Chargesheet"
      (truthy_object (chargesheet state)) (Some "chargesheet");
    mkTab "next-steps" "Recommendations"
      (truthy_opt_length (next_steps state)) None;
    mkTab "historical" "Historical Cases"
      (truthy_opt_length (historical_cases state))
      (Some "historical_cases") ].

(** The callback of [allTabs.filter]. *)
Definition tab_filter (selectedSections : option (list string)) (tab : Tab)
  : bool :=
  if String.eqb (id tab) "fir-facts" then condition tab
  else if negb (condition tab) then false
  else match selectedSections with
       | None => true
       | Some sel =>
           if Nat.eqb (length sel) 0 then true
           else match sectionId tab with
                | None => true
                | Some s =>
                    if negb (truthy_string s) then true
                    else Array_includes sel s
                end
       end.

Definition tabs (state : WorkflowState.t)
    (selectedSections : option (list string)) : list Tab :=
  List.filter (tab_filter selectedSections) (allTabs state).

(** [useState(tabs[0]?.id || '')]. *)
Definition initial_activeTab (state : WorkflowState.t)
    (selectedSections : option (list string)) : string :=
  or_default (id <$> head (tabs state selectedSections)) "".

Section Renderers.
Context `{Marked}.

Definition md (s : string) : Leaf := InnerHTML (marked_parse s).

Definition FirFactsSection (facts : list (string * string)) : View :=
  let card (e : string * string) :=
    mkCard (KeyStr (fst e)) [Text (replace_underscores (fst e)); md (snd e)]
  in
  ColumnsView "FIR Facts Summary"
    (card <$> leftColumn facts) (card <$> rightColumn facts).

Definition SectionsSection (title : string)
    (sections : list (Obj StatuteSection.t)) : View :=
  let card (section : Obj StatuteSection.t) :=
    let originalIdx := Array_indexOf sections section in
    mkCard (KeyNum originalIdx)
      ([ Text (StatuteSection.section_number (fields section));
         md (StatuteSection.section_description (fields section));
         md (StatuteSection.why_section_is_relevant (fields section)) ]
       ++ when_string (StatuteSection.source (fields section))
            (fun s => [Anchor s s]))
  in
  ColumnsView title
    (card <$> leftColumn sections) (card <$> rightColumn sections).

Definition InvestigationPlanSection (plan : list (Obj PlanPoint.t))
  : View :=
  let card (point : Obj PlanPoint.t) :=
    let originalIdx := Array_indexOf plan point in
    mkCard (KeyNum originalIdx)
      ([ Num (originalIdx + 1); Text (PlanPoint.title (fields point)) ]
       ++ when_string (PlanPoint.date_range (fields point))
            (fun d => [Text d])
       ++ [ md (PlanPoint.description (fields point)) ])
  in
  ColumnsView "Detailed Investigation Plan"
    (card <$> leftColumn plan) (card <$> rightColumn plan).

Definition TimelineSection (timeline : Timeline.t) : View :=
  BlockView "Investigation & Legal Timeline"
    ((if truthy_string (Timeline.date_string timeline)
      then [Text (Timeline.date_string timeline)] else [])
     ++ [ md (Timeline.timeline timeline) ]).

Definition EvidenceSection (checklist : string) : View :=
  BlockView "Evidence Checklist & Compliance" [ md checklist ].

Definition DosDontsSection (dos donts : list string) : View :=
  let li (idx : nat) (item : string) :=
    mkCard (KeyNum (Z.of_nat idx)) [Text item] in
  ColumnsView "Do's & Don'ts for Law Enforcement"
    (imap li dos) (imap li donts).

Definition WeaknessesSection (weaknesses : list (string * string))
  : View :=
  let card (idx : nat) (e : string * string) :=
    mkCard (KeyNum (Z.of_nat idx)) [Text (fst e); Text (snd e)] in
  ColumnsView "Potential Prosecution Weaknesses"
    (imap card (leftColumn weaknesses))
    (imap card (rightColumn weaknesses)).

Definition NextStepsSection (steps : list string) : View :=
  let card (step : string) :=
    let originalIdx := Array_indexOf steps step in
    mkCard (KeyNum originalIdx) [ md step ]
  in
  ColumnsView "Other Recommendations"
    (card <$> leftColumn steps) (card <$> rightColumn steps).

Definition HistoricalCasesSection (cases : list (Obj HistoricalCase.t))
  : View :=
  let card (caseItem : Obj HistoricalCase.t) :=
    let originalIdx := Array_indexOf cases caseItem in
    mkCard (KeyNum originalIdx)
      ([ Text (HistoricalCase.title (fields caseItem));
         md (HistoricalCase.summary (fields caseItem)) ]
       ++ when_string (HistoricalCase.url (fields caseItem))
            (fun u => [Anchor u "View Source →"]))
  in
  ColumnsView "Historical Cases"
    (card <$> leftColumn cases) (card <$> rightColumn cases).

Definition DefenceRebuttalSection (data : list DefenceRebuttal.t) : View :=
  let card (idx : nat) (item : DefenceRebuttal.t) :=
    mkCard (KeyNum (Z.of_nat idx))
      ((md <$> DefenceRebuttal.defence_perspective item)
       ++ (md <$> DefenceRebuttal.rebuttal item))
  in
  ListView "Defence Perspective & Prosecution Rebuttal" (imap card data).

(** [list && list.length > 0 && list.map(f)]. *)
Definition when_nonempty (l : list string) (f : list string -> list Leaf)
  : list Leaf :=
  if Nat.ltb 0 (length l) then f l else [].

Definition CourtSummarySection (summary : CourtSummary.t) : View :=
  BlockView "Summary for the Court"
    ([ Text (CourtSummary.case_title summary) ]
     ++ when_nonempty (CourtSummary.ndps_sections summary)
          (fun l => [Text (Array_join ", " l)])
     ++ [ md (CourtSummary.core_issue summary);
          Text (CourtSummary.date_and_place summary);
          md (CourtSummary.recovery summary);
          md (CourtSummary.quantity summary) ]
     ++ when_nonempty (CourtSummary.safeguards summary) (fmap Text)
     ++ when_nonempty (CourtSummary.conscious_possession_proven summary)
          (fmap md)
     ++ when_nonempty (CourtSummary.procedural_compliance summary)
          (fmap md)
     ++ when_nonempty (CourtSummary.legal_position summary) (fmap md)
     ++ [ md (CourtSummary.judicial_balance summary) ]
     ++ (md <$> CourtSummary.prosecution_prayer summary)).

Definition ChargesheetSection (chargesheet : Chargesheet.t) : View :=
  (* Combine all sections for display *)
  let allSections :=
    (if Nat.ltb 0 (length (Chargesheet.ndps_sections chargesheet))
     then ["NDPS Act – "
           +:+ Array_join ", " (Chargesheet.ndps_sections chargesheet)]
     else [])
    ++ (if Nat.ltb 0 (length (Chargesheet.bns_sections chargesheet))
        then ["BNS – "
              +:+ Array_join ", " (Chargesheet.bns_sections chargesheet)]
        else [])
    ++ (if Nat.ltb 0 (length (Chargesheet.bnss_sections chargesheet))
        then ["BNSS – "
              +:+ Array_join ", " (Chargesheet.bnss_sections chargesheet)]
        else [])
    ++ (if Nat.ltb 0 (length (Chargesheet.bsa_sections chargesheet))
        then ["BSA – "
              +:+ Array_join ", " (Chargesheet.bsa_sections chargesheet)]
        else [])
  in
  BlockView "Chargesheet"
    ([ Text (Chargesheet.case_title chargesheet) ]
     ++ when_nonempty allSections (fmap Text)
     ++ [ md (Chargesheet.core_issue chargesheet);
          Text (Chargesheet.date_and_place chargesheet);
          md (Chargesheet.recovery chargesheet);
          md (Chargesheet.quantity chargesheet) ]
     ++ when_nonempty (Chargesheet.safeguards chargesheet) (fmap Text)
     ++ when_nonempty (Chargesheet.conscious_possession_proven chargesheet)
          (fmap md)
     ++ when_nonempty (Chargesheet.procedural_compliance chargesheet)
          (fmap md)
     ++ when_nonempty (Chargesheet.legal_position chargesheet) (fmap md)
     ++ [ md (Chargesheet.judicial_balance chargesheet) ]
     ++ (md <$> Chargesheet.prosecution_prayer chargesheet)).

(** [{activeTab === id && value && <Section/>}]. *)
Definition show {A} (activeTab tab_id : string) (value : option A)
    (truthy : bool) (render : A -> View) : list View :=
  if String.eqb activeTab tab_id && truthy
  then match value with Some v => [render v] | None => [] end
  else [].

(** The tab content area for the active tab. *)
Definition tab_content (state : WorkflowState.t) (activeTab : string)
  : list View :=
  show activeTab "fir-facts" (fir_facts state)
       (truthy_object (fir_facts state)) FirFactsSection
  ++ show activeTab "ndps" (ndps_sections state)
       (truthy_object (ndps_sections state)) (SectionsSection "NDPS Act")
  ++ show activeTab "bns" (bns_sections state)
       (truthy_object (bns_sections state))
       (SectionsSection "Bharatiya Nyaya Sanhita (BNS)")
  ++ show activeTab "bnss" (bnss_sections state)
       (truthy_object (bnss_sections state))
       (SectionsSection "Bharatiya Nagarik Suraksha Sanhita (BNSS)")
  ++ show activeTab "bsa" (bsa_sections state)
       (truthy_object (bsa_sections state))
       (SectionsSection "Bharatiya Sakshya Adhiniyam (BSA)")
  ++ show activeTab "investigation" (investigation_plan state)
       (truthy_object (investigation_plan state)) InvestigationPlanSection
  ++ show activeTab "timeline" (investigation_and_legal_timeline state)
       (truthy_object (investigation_and_legal_timeline state))
       TimelineSection
  ++ show activeTab "evidence" (evidence_checklist state)
       (truthy_opt_string (evidence_checklist state)) EvidenceSection
  ++ show activeTab "dos-donts" (dos state)
       (truthy_object (dos state) && truthy_object (donts state))
       (fun d => DosDontsSection d (default [] (donts state)))
  ++ show activeTab "weaknesses" (potential_prosecution_weaknesses state)
       (truthy_object (potential_prosecution_weaknesses state))
       WeaknessesSection
  ++ show activeTab "defence-rebuttal" (defence_perspective_rebuttal state)
       (truthy_object (defence_perspective_rebuttal state))
       DefenceRebuttalSection
  ++ show activeTab "court-summary" (summary_for_the_court state)
       (truthy_object (summary_for_the_court state)) CourtSummarySection
  ++ show activeTab "chargesheet" (chargesheet state)
       (truthy_object (chargesheet state)) ChargesheetSection
  ++ show activeTab "next-steps" (next_steps state)
       (truthy_object (next_steps state)) NextStepsSection
  ++ show activeTab "historical" (historical_cases state)
       (truthy_object (historical_cases state)) HistoricalCasesSection.
End Renderers.
End ResultsContent.

(** ** The browser as seen by the event handlers *)

Module File.
(** A DOM [File]: [size] is in bytes. *)
Record t := mk { name : string; type : string; size : Z }.
End File.

Module Browser.
Definition Blob := list byte.

Inductive FormValue := FormFile (f : File.t) | FormString (s : string).
Definition FormData := list (string * FormValue).

Inductive Method := GET | POST.
Record Request := mkRequest {
  method : Method;
  url : string;
  body : FormData }.

(** The detached [<a href=url download=name>] built for a download. *)
Record AnchorElement := mkAnchor { href : Blob; download : string }.

(** A thrown value: whether it is an [Error] instance, and its message. *)
Record Exn := mkExn { instanceof_Error : bool; message : string }.
Definition new_Error (msg : string) : Exn := mkExn true msg.

(** What a handler does to the outside world, in program order. *)
Inductive Effect :=
| Fetch (r : Request)
| Navigate (to : string)
| ConsoleError (msg : string) (err : Exn)
| Alert (msg : string)
| CreateObjectURL (b : Blob)
| AppendChild (a : AnchorElement)
| Click (a : AnchorElement)
| RevokeObjectURL (b : Blob)
| RemoveChild (a : AnchorElement).

(** What the network answers to one [fetch]: the promise rejects, or it
    resolves to a response whose body read ([json()], [blob()]) resolves
    or rejects. *)
Record Response (B : Type) := mkResponse { ok : bool; read : Exn + B }.
Arguments mkResponse {B} _ _.
Arguments ok {B} _.
Arguments read {B} _.
Definition FetchResult (B : Type) : Type := Exn + Response B.

(** [`${v}`] for an optional string. *)
Definition template (v : option string) : string := default "undefined" v.
End Browser.

Import Browser.

(** ** Event handlers: React state, effects and exceptions

    A handler threads the component state (each [setX] writes one field),
    appends to the effect trace and may throw. *)

Module Handler.
Definition M (St A : Type) : Type := St -> (Exn + A) * St * list Effect.

Section Ops.
Context {St : Type}.

Definition ret {A} (a : A) : M St A := fun s => (inr a, s, []).

Definition bind {A B} (m : M St A) (k : A -> M St B) : M St B :=
  fun s =>
    match m s with
    | (inl e, s', tr) => (inl e, s', tr)
    | (inr a, s', tr) =>
        let '(r, s'', tr') := k a s' in (r, s'', tr ++ tr')
    end.

Definition set (f : St -> St) : M St unit := fun s => (inr tt, f s, []).
Definition emit (e : Effect) : M St unit := fun s => (inr tt, s, [e]).
Definition throw {A} (e : Exn) : M St A := fun s => (inl e, s, []).

(** [try { body } catch (err) { handler err }]. *)
Definition try_catch {A} (body : M St A) (handler : Exn -> M St A)
  : M St A :=
  fun s =>
    match body s with
    | (inl e, s', tr) =>
        let '(r, s'', tr') := handler e s' in (r, s'', tr ++ tr')
    | done => done
    end.

(** [try { body } finally { fin }]. *)
Definition finally {A} (body : M St A) (fin : M St unit) : M St A :=
  fun s =>
    let '(r, s', tr) := body s in
    match fin s' with
    | (inl e, s'', tr') => (inl e, s'', tr ++ tr')
    | (inr _, s'', tr') => (r, s'', tr ++ tr')
    end.

(** [await fetch(request)], answered by [net]. *)
Definition fetch {B} (r : Request) (net : FetchResult B)
  : M St (Response B) :=
  fun s =>
    match net with
    | inl e => (inl e, s, [Fetch r])
    | inr response => (inr response, s, [Fetch r])
    end.

(** [await response.json()] or [await response.blob()]. *)
Definition read_body {B} (response : Response B) : M St B :=
  match read response with
  | inl e => throw e
  | inr b => ret b
  end.

(** Final state and effect trace of a handler. *)
Definition exec {A} (m : M St A) (s : St) : St * list Effect :=
  let '(_, s', tr) := m s in (s', tr).
End Ops.

#[export] Instance M_ret {St} : MRet (M St) := fun A => @ret St A.
#[export] Instance M_bind {St} : MBind (M St) :=
  fun A B k m => @bind St A B m k.
End Handler.

Import Handler.

(** The number of requests in a trace that satisfy [p]. *)
Definition count_requests (p : Request -> bool) (tr : list Effect) : nat :=
  length (List.filter (fun e => match e with Fetch r => p r | _ => false end)
                      tr).

Definition is_request (m : Method) (u : string) (r : Request) : bool :=
  match m, method r with
  | GET, GET | POST, POST => String.eqb (url r) u
  | _, _ => false
  end.

(** The body of [{ success, workflow_id }] or [{ detail }] replies. *)
Module UploadReply.
Record t := mk {
  success : bool;
  workflow_id : option string;
  detail : option string }.
End UploadReply.

Definition AVAILABLE_SECTIONS : list (string * string * string) :=
  [ ("ndps", "NDPS Act", "Narcotic Drugs and Psychotropic Substances Act");
    ("bns", "BNS", "Bharatiya Nyaya Sanhita");
    ("bnss", "BNSS", "Bharatiya Nagarik Suraksha Sanhita");
    ("bsa", "BSA", "Bharatiya Sakshya Adhiniyam");
    ("investigation_plan", "Investigation Plan",
     "Detailed investigation roadmap");
    ("historical_cases", "Historical Cases", "Similar past legal cases");
    ("timeline", "Timeline", "Investigation & legal timeline");
    ("evidence", "Evidence Checklist", "Evidence collection requirements");
    ("dos_and_donts", "Do's & Don'ts", "Guidelines for law enforcement");
    ("weaknesses", "Prosecution Weaknesses", "Potential case weaknesses");
    ("defence_rebuttal", "Defence & Rebuttal",
     "Defence perspective and prosecution rebuttal");
    ("court_summary", "Summary for Court",
     "Comprehensive court summary for prosecution");
    ("chargesheet", "Chargesheet",
     "Formal chargesheet with relevant sections") ].

Definition section_id (s : string * string * string) : string := fst (fst s).

(** ** pages/UploadPage *)

Module UploadPage.

Record State := mkState {
  file : option File.t;
  selectedSections : list string;
  isUploading : bool;
  error : option string }.

Definition initial : State :=
  mkState None (section_id <$> AVAILABLE_SECTIONS) false None.

Definition setFile (v : option File.t) : M State unit :=
  set (fun s => mkState v (selectedSections s) (isUploading s) (error s)).
Definition setSelectedSections (v : list string) : M State unit :=
  set (fun s => mkState (file s) v (isUploading s) (error s)).
Definition setIsUploading (v : bool) : M State unit :=
  set (fun s => mkState (file s) (selectedSections s) v (error s)).
Definition setError (v : option string) : M State unit :=
  set (fun s => mkState (file s) (selectedSections s) (isUploading s) v).

Definition MAX_SIZE : Z := 10 * 1024 * 1024.

(** [onChange] of the hidden file input; the argument is
    [e.target.files?.[0]]. *)
Definition handleFileSelect (selectedFile : option File.t) : M State unit :=
  match selectedFile with
  | Some f =>
      if negb (String.eqb (File.type f) "application/pdf")
      then setError (Some "Please select a PDF file")
      else if Z.ltb MAX_SIZE (File.size f)
      then setError (Some "File size exceeds 10MB limit")
      else (setFile (Some f);; setError None)
  | None => mret tt
  end.

(** [onDrop] of the drop zone; the argument is [e.dataTransfer.files[0]]. *)
Definition handleDrop (droppedFile : option File.t) : M State unit :=
  match droppedFile with
  | Some f =>
      if String.eqb (File.type f) "application/pdf"
      then (setFile (Some f);; setError None)
      else setError (Some "Please drop a PDF file")
  | None => setError (Some "Please drop a PDF file")
  end.

Section Submit.
Context `{JsonCodec}.

(** [onSubmit] of the form. [snap] holds the values the closure captured
    at render time; [net] is the answer to the one [fetch]. *)
Definition handleSubmit (snap : State)
    (net : FetchResult UploadReply.t) : M State unit :=
  match file snap with
  | None => setError (Some "Please select a PDF file")
  | Some f =>
      setIsUploading true;;
      setError None;;
      if Nat.eqb (length (selectedSections snap)) 0
      then setError (Some "Please select at least one section to analyze")
      else
        let formData :=
          [ ("file", FormFile f);
            ("sections",
             FormString (JSON_stringify (selectedSections snap))) ] in
        try_catch
          (response ← fetch (mkRequest POST "/upload" formData) net;
           data ← read_body response;
           if ok response && UploadReply.success data
           then emit (Navigate
                        ("/results/"
                         +:+ template (UploadReply.workflow_id data)))
           else (setError
                   (Some (or_default (UploadReply.detail data)
                            "Error processing PDF. Please try again."));;
                 setIsUploading false))
          (fun err =>
             setError
               (Some "Network error. Please check your connection and try again.");;
             setIsUploading false)
  end.
End Submit.

(** [disabled] of the submit button. *)
Definition submit_disabled (s : State) : bool :=
  negb (truthy_object (file s)) || isUploading s
  || Nat.eqb (length (selectedSections s)) 0.

(** The section check boxes and the two bulk buttons. *)
Definition toggleSection (snap : State) (id : string) (checked : bool)
  : M State unit :=
  if checked
  then setSelectedSections (selectedSections snap ++ [id])
  else setSelectedSections
         (List.filter (fun x => negb (String.eqb x id))
                      (selectedSections snap)).

Definition selectAll : M State unit :=
  setSelectedSections (section_id <$> AVAILABLE_SECTIONS).
Definition clearAll : M State unit := setSelectedSections [].

(** The error banner: [{error && <span>{error}</span>}]. *)
Definition error_banner (s : State) : option string :=
  match error s with
  | Some e => if truthy_string e then Some e else None
  | None => None
  end.
End UploadPage.

(** ** pages/ResultsPage *)

Module ResultsPage.

Record State := mkState {
  state : option WorkflowState.t;
  loading : bool;
  error : option string;
  showAddSections : bool;
  selectedNewSections : list string;
  isGenerating : bool;
  isDownloading : bool }.

Definition initial : State := mkState None true None false [] false false.

Definition setState (v : option WorkflowState.t) : M State unit :=
  set (fun s => mkState v (loading s) (error s) (showAddSections s)
                  (selectedNewSections s) (isGenerating s) (isDownloading s)).
Definition setLoading (v : bool) : M State unit :=
  set (fun s => mkState (state s) v (error s) (showAddSections s)
                  (selectedNewSections s) (isGenerating s) (isDownloading s)).
Definition setError (v : option string) : M State unit :=
  set (fun s => mkState (state s) (loading s) v (showAddSections s)
                  (selectedNewSections s) (isGenerating s) (isDownloading s)).
Definition setShowAddSections (v : bool) : M State unit :=
  set (fun s => mkState (state s) (loading s) (error s) v
                  (selectedNewSections s) (isGenerating s) (isDownloading s)).
Definition setSelectedNewSections (v : list string) : M State unit :=
  set (fun s => mkState (state s) (loading s) (error s) (showAddSections s)
                  v (isGenerating s) (isDownloading s)).
Definition setIsGenerating (v : bool) : M State unit :=
  set (fun s => mkState (state s) (loading s) (error s) (showAddSections s)
                  (selectedNewSections s) v (isDownloading s)).
Definition setIsDownloading (v : bool) : M State unit :=
  set (fun s => mkState (state s) (loading s) (error s) (showAddSections s)
                  (selectedNewSections s) (isGenerating s) v).

(** Truthiness of the route parameter [workflowId]. *)
Definition has_workflowId (workflowId : option string) : bool :=
  truthy_opt_string workflowId.

Definition results_url (workflowId : option string) : string :=
  "/api/results/" +:+ template workflowId.
Definition document_url (workflowId : option string) : string :=
  "/api/document/" +:+ template workflowId.

(** The body of [useEffect(..., [workflowId])]: it runs once after the
    page is mounted and again only when [workflowId] changes. *)
Definition fetchResults (workflowId : option string)
    (net : FetchResult WorkflowState.t) : M State unit :=
  finally
    (try_catch
       (response ← fetch (mkRequest GET (results_url workflowId) []) net;
        if negb (ok response)
        then throw (new_Error "Failed to fetch results")
        else (data ← read_body response; setState (Some data)))
       (fun err =>
          setError (Some (if instanceof_Error err then message err
                          else "Failed to load results"))))
    (setLoading false).

Definition useEffect (workflowId : option string)
    (net : FetchResult WorkflowState.t) : M State unit :=
  if has_workflowId workflowId then fetchResults workflowId net
  else mret tt.

Section AddSections.
Context `{JsonCodec}.

(** [net_upload] answers the [POST /upload], [net_results] the refresh. *)
Definition handleAddSections (snap : State) (workflowId : option string)
    (net_upload : FetchResult UploadReply.t)
    (net_results : FetchResult WorkflowState.t) : M State unit :=
  if negb (has_workflowId workflowId)
     || Nat.eqb (length (selectedNewSections snap)) 0
  then setError (Some "Please select at least one section to generate")
  else
    setIsGenerating true;;
    setError None;;
    finally
      (try_catch
         (let formData :=
            [ ("sections",
               FormString (JSON_stringify (selectedNewSections snap)));
              ("workflow_id", FormString (template workflowId)) ] in
          response ← fetch (mkRequest POST "/upload" formData) net_upload;
          data ← read_body response;
          if ok response && UploadReply.success data
          then
            (* Refresh results *)
            resultsResponse ←
              fetch (mkRequest GET (results_url workflowId) [])
                    net_results;
            if ok resultsResponse
            then (updatedData ← read_body resultsResponse;
                  setState (Some updatedData);;
                  setShowAddSections false;;
                  setSelectedNewSections [])
            else mret tt
          else setError
                 (Some (or_default (UploadReply.detail data)
                          "Error generating additional sections")))
         (fun err =>
            setError
              (Some "Network error. Please check your connection and try again.")))
      (setIsGenerating false).
End AddSections.

(** [onClick] of the Generate Document button. *)
Definition handleDownload (snap : State) (workflowId : option string)
    (net : FetchResult Blob) : M State unit :=
  if negb (has_workflowId workflowId) || isDownloading snap then mret tt
  else
    setIsDownloading true;;
    finally
      (try_catch
         (response ← fetch (mkRequest GET (document_url workflowId) []) net;
          if negb (ok response)
          then throw (new_Error "Failed to generate document")
          else
            (blob ← read_body response;
             emit (CreateObjectURL blob);;
             let a :=
               mkAnchor blob
                 ("FIR_Report_" +:+ template workflowId +:+ ".docx") in
             emit (AppendChild a);;
             emit (Click a);;
             emit (RevokeObjectURL blob);;
             emit (RemoveChild a)))
         (fun err =>
            emit (ConsoleError "Error downloading document:" err);;
            emit (Alert "Failed to generate document. Please try again.")))
      (setIsDownloading false).

Definition getAvailableSections (s : State)
  : list (string * string * string) :=
  let existingSections :=
    match state s with
    | Some st => default [] (WorkflowState.sections st)
    | None => []
    end in
  List.filter
    (fun section => negb (Array_includes existingSections (section_id section)))
    AVAILABLE_SECTIONS.

(** Which of the three returns of the component is rendered. *)
Inductive Screen :=
| LoadingScreen
| ErrorScreen (msg : string)
| ResultsScreen (st : WorkflowState.t).

Definition screen (s : State) : Screen :=
  if loading s then LoadingScreen
  else match error s, state s with
       | Some e, Some st =>
           if truthy_string e then ErrorScreen e else ResultsScreen st
       | Some e, None => ErrorScreen (or_default (Some e) "Results not found")
       | None, Some st => ResultsScreen st
       | None, None => ErrorScreen "Results not found"
       end.

(** The user and lifecycle events of the page, each with the network
    answers its handler will receive. *)
Inductive Event :=
| PageLoad (net : FetchResult WorkflowState.t)
| ClickGenerateSections (net_upload : FetchResult UploadReply.t)
                        (net_results : FetchResult WorkflowState.t)
| ClickGenerateDocument (net : FetchResult Blob)
| ClickAddMore
| ClickCancel
| ToggleNewSection (id : string) (checked : bool)
| ClickSelectAll.

Section Page.
Context `{JsonCodec}.

Definition handle (workflowId : option string) (ev : Event) (s : State)
  : M State unit :=
  match ev with
  | PageLoad net => useEffect workflowId net
  | ClickGenerateSections net_upload net_results =>
      handleAddSections s workflowId net_upload net_results
  | ClickGenerateDocument net => handleDownload s workflowId net
  | ClickAddMore => setShowAddSections true
  | ClickCancel => setShowAddSections false;; setSelectedNewSections []
  | ToggleNewSection id checked =>
      if checked
      then setSelectedNewSections (selectedNewSections s ++ [id])
      else setSelectedNewSections
             (List.filter (fun x => negb (String.eqb x id))
                          (selectedNewSections s))
  | ClickSelectAll =>
      setSelectedNewSections (section_id <$> getAvailableSections s)
  end.

(** Running a sequence of events from a state: final state and the
    trace of all effects. *)
Fixpoint run (workflowId : option string) (evs : list Event) (s : State)
  : State * list Effect :=
  match evs with
  | [] => (s, [])
  | ev :: evs' =>
      let '(s', tr) := exec (handle workflowId ev s) s in
      let '(s'', tr') := run workflowId evs' s' in
      (s'', tr ++ tr')
  end.
End Page.

Definition is_page_load (ev : Event) : bool :=
  match ev with PageLoad _ => true | _ => false end.
Definition is_generate_sections (ev : Event) : bool :=
  match ev with ClickGenerateSections _ _ => true | _ => false end.
End ResultsPage.

(** ** Concrete stand-ins used to evaluate the model on examples *)

(** What [marked.parse] returns on one line of plain text that holds no
    Markdown syntax: the text as a paragraph. *)
Definition paragraph_marked : Marked :=
  fun s => "<p>" +:+ s +:+ "</p>" +:+ String (Ascii.ascii_of_nat 10) "".

(** What [JSON.stringify] returns on an array of strings that need no
    escaping, such as the section identifiers. *)
Definition identifier_json : JsonCodec :=
  fun l =>
    let quote := String (Ascii.ascii_of_nat 34) EmptyString in
    "[" +:+ String.concat "," ((fun s => quote +:+ s +:+ quote) <$> l) +:+ "]".

(** ** Vocabulary for stating the properties *)

(** An optional array that is present and not empty. *)
Definition nonempty_array {A} (o : option (list A)) : Prop :=
  exists l, o = Some l /\ l <> [].

(** An optional string that is present and not empty. *)
Definition nonempty_string (o : option string) : Prop :=
  exists s, o = Some s /\ s <> "".

(** The selection lets the tab of section [s] through: there is no
    selection, or it is empty, or it lists [s]. *)
Definition section_selected (selectedSections : option (list string))
    (s : string) : Prop :=
  selectedSections = None \/ selectedSections = Some [] \/
  exists sel, selectedSections = Some sel /\ s ∈ sel.

(** The tab identifiers in the order of [allTabs]. *)
Definition TAB_ORDER : list string :=
  [ "fir-facts"; "ndps"; "bns"; "bnss"; "bsa"; "investigation"; "timeline";
    "evidence"; "dos-donts"; "weaknesses"; "defence-rebuttal";
    "court-summary"; "chargesheet"; "next-steps"; "historical" ].

(** The identifiers of the tabs on the screen, in screen order. *)
Definition rendered_tabs (state : WorkflowState.t)
    (selectedSections : option (list string)) : list string :=
  ResultsContent.id <$> ResultsContent.tabs state selectedSections.

(** ** Example payloads *)

(** [{ evidence_checklist: "" }]. *)
Definition payload_empty_checklist : WorkflowState.t :=
  WorkflowState.mk None None None None None None None None None (Some "")
    None None None None None None None None None None.

(** [{ dos: [], donts: [] }]. *)
Definition payload_empty_dos_donts : WorkflowState.t :=
  WorkflowState.mk None None None None None None None None None None
    (Some []) (Some []) None None None None None None None None.

(** [{ dos: ["Seal **all** samples"], donts: ["Do not delay"] }]. *)
Definition payload_dos_donts : WorkflowState.t :=
  WorkflowState.mk None None None None None None None None None None
    (Some ["Seal **all** samples"]) (Some ["Do not delay"])
    None None None None None None None None.

(** ** Example inputs of the handlers *)

Definition sample_pdf : File.t :=
  File.mk "fir.pdf" "application/pdf" 204800.

(** A PDF of 10 MB plus one byte. *)
Definition large_pdf : File.t :=
  File.mk "scan.pdf" "application/pdf" (10 * 1024 * 1024 + 1).

Definition ready_to_upload : UploadPage.State :=
  UploadPage.mkState (Some sample_pdf) ["ndps"; "timeline"] false None.

Definition nothing_selected : UploadPage.State :=
  UploadPage.mkState (Some sample_pdf) [] false None.

(** [200 { success: true, workflow_id: "wf-1" }]. *)
Definition accepted_reply : FetchResult UploadReply.t :=
  inr (mkResponse true (inr (UploadReply.mk true (Some "wf-1") None))).

(** A response with a failure status whose body is not read. *)
Definition server_error {B} : FetchResult B :=
  inr (mkResponse false (inl (mkExn true "Unexpected end of JSON input"))).

(** A results page that has loaded the payload [{}]. *)
Definition loaded_results : ResultsPage.State :=
  ResultsPage.mkState (Some WorkflowState.empty) false None false [] false
    false.

(** [200 {}] from the results endpoint. *)
Definition results_reply : FetchResult WorkflowState.t :=
  inr (mkResponse true (inr WorkflowState.empty)).

(** The first bytes of a .docx file. *)
Definition sample_docx : Blob := [x50; x4b; x03; x04].

Definition document_reply : FetchResult Blob :=
  inr (mkResponse true (inr sample_docx)).

(** An ok response whose body cannot be read: the connection is lost while
    the document is being transferred, so [response.blob()] rejects. *)
Definition truncated_document : FetchResult Blob :=
  inr (mkResponse true (inl (mkExn true "Failed to fetch"))).

(** The results page as it is while a download runs. *)
Definition results_while_downloading : ResultsPage.State :=
  ResultsPage.mkState (Some WorkflowState.empty) false None false [] false
    true.

(** ** Vocabulary of the upload page *)

(** The handler stored [f] as the selected file and cleared the error. *)
Definition accepts (s s' : UploadPage.State) (f : File.t) : Prop :=
  s' = UploadPage.mkState (Some f) (UploadPage.selectedSections s)
         (UploadPage.isUploading s) None.

(** The handler only put [msg] in the error string. *)
Definition rejects (s s' : UploadPage.State) (msg : string) : Prop :=
  s' = UploadPage.mkState (UploadPage.file s) (UploadPage.selectedSections s)
         (UploadPage.isUploading s) (Some msg).

(** ** Vocabulary of the results page *)

(** A [GET] fails: the promise rejects, the status is not ok, or the body
    cannot be read. *)
Definition fetch_failed {B} (net : FetchResult B) : Prop :=
  match net with
  | inl _ => True
  | inr (mkResponse false _) => True
  | inr (mkResponse true (inl _)) => True
  | inr (mkResponse true (inr _)) => False
  end.

(** A [POST /upload] fails: the promise rejects, the body cannot be read,
    or the reply is not an ok response with a true [success]. *)
Definition upload_failed (net : FetchResult UploadReply.t) : Prop :=
  match net with
  | inl _ => True
  | inr (mkResponse _ (inl _)) => True
  | inr (mkResponse ok (inr data)) => ok && UploadReply.success data = false
  end.

(** ** Vocabulary of positions under [===] *)

(** The element types of the numbered lists are strings and objects, on
    which [x === x] holds. *)
Class StrictEqRefl (A : Type) `{StrictEq A} : Prop :=
  strict_eq_refl : forall x : A, strict_eq x x = true.

#[export] Instance string_strict_eq_refl : StrictEqRefl string.
Proof. intros x. apply String.eqb_refl. Qed.

#[export] Instance obj_strict_eq_refl {T} : StrictEqRefl (Obj T).
Proof. intros x. apply Nat.eqb_refl. Qed.

(** [j] is the first position of [l] holding an element [===] to [x]. *)
Definition first_match {A} `{StrictEq A} (l : list A) (x : A) (j : nat)
  : Prop :=
  (exists y, l !! j = Some y /\ strict_eq y x = true) /\
  forall j' y', j' < j -> l !! j' = Some y' -> strict_eq y' x = false.

(** No two positions of [l] hold [===] elements. *)
Definition pairwise_distinct {A} `{StrictEq A} (l : list A) : Prop :=
  forall i j x y,
    l !! i = Some x -> l !! j = Some y -> strict_eq x y = true -> i = j.

(** The column an item of original position [i] is rendered in. *)
Definition column_of (i : nat) (v : View) : list Card :=
  if Nat.even i then left_cards v else right_cards v.

(** One plan step, and a plan that holds the same object twice. *)
Definition step_seize : Obj PlanPoint.t :=
  mkObj 1 (PlanPoint.mk "Seize the contraband" (Some "Day 1")
             "Draw samples before sealing.").

Definition step_statements : Obj PlanPoint.t :=
  mkObj 2 (PlanPoint.mk "Record statements" None "Under section 67.").

Definition plan_with_repeat : list (Obj PlanPoint.t) :=
  [ step_statements; step_seize; step_seize ].

(** ** Vocabulary of the two-column sections *)


(** ** The upload form as a whole

    The events a user can cause on the upload page. A check box is
    controlled: it shows [selectedSections.includes(id)], so the
    [e.target.checked] its [onChange] receives is the negation of that.
    The submit button is the only submit control of the form, and the
    browser sends no submit event while it is disabled. *)

Module UploadForm.
Import UploadPage.

Inductive Event :=
| PickFile (selectedFile : option File.t)
| DropFile (droppedFile : option File.t)
| ClickCheckbox (id : string)
| ClickSelectAll
| ClickClearAll
| ClickSubmit (net : FetchResult UploadReply.t).

(** The check boxes on the page are those of [AVAILABLE_SECTIONS]. *)
Definition rendered (ev : Event) : Prop :=
  match ev with
  | ClickCheckbox id => id ∈ section_id <$> AVAILABLE_SECTIONS
  | _ => True
  end.

Section Form.
Context `{JsonCodec}.

Definition handle (ev : Event) (s : State) : M State unit :=
  match ev with
  | PickFile selectedFile => handleFileSelect selectedFile
  | DropFile droppedFile => handleDrop droppedFile
  | ClickCheckbox id =>
      toggleSection s id (negb (Array_includes (selectedSections s) id))
  | ClickSelectAll => selectAll
  | ClickClearAll => clearAll
  | ClickSubmit net =>
      if submit_disabled s then mret tt else handleSubmit s net
  end.

Fixpoint run (evs : list Event) (s : State) : State * list Effect :=
  match evs with
  | [] => (s, [])
  | ev :: evs' =>
      let '(s', tr) := exec (handle ev s) s in
      let '(s'', tr') := run evs' s' in
      (s'', tr ++ tr')
  end.
End Form.
End UploadForm.

(** ** The upload form while a request is in flight

    [handleSubmit] is an async function: it runs up to [await fetch(...)],
    returns to the event loop, and is resumed when the fetch settles. In
    between the page is rendered with the state set so far and the user can
    go on causing events. Here the handler is cut at that point. *)

Module UploadSession.
Import UploadPage.

Section Submit.
Context `{JsonCodec}.

(** [handleSubmit] from its start to [await fetch(...)]: the result is the
    request it is now waiting for, if it sent one. *)
Definition submit_until_fetch (snap : State) : M State (option Request) :=
  match file snap with
  | None => setError (Some "Please select a PDF file");; mret None
  | Some f =>
      setIsUploading true;;
      setError None;;
      if Nat.eqb (length (selectedSections snap)) 0
      then setError (Some "Please select at least one section to analyze");;
           mret None
      else
        let formData :=
          [ ("file", FormFile f);
            ("sections",
             FormString (JSON_stringify (selectedSections snap))) ] in
        emit (Fetch (mkRequest POST "/upload" formData));;
        mret (Some (mkRequest POST "/upload" formData))
  end.
End Submit.

(** The rest of [handleSubmit], run when the fetch settles with [net]. *)
Definition submit_after_fetch (net : FetchResult UploadReply.t)
  : M State unit :=
  try_catch
    (response ← match net with
                | inl e => throw e
                | inr response => mret response
                end;
     data ← read_body response;
     if ok response && UploadReply.success data
     then emit (Navigate
                  ("/results/" +:+ template (UploadReply.workflow_id data)))
     else (setError
             (Some (or_default (UploadReply.detail data)
                      "Error processing PDF. Please try again."));;
           setIsUploading false))
    (fun err =>
       setError
         (Some "Network error. Please check your connection and try again.");;
       setIsUploading false).

(** The page: the component state and the number of submissions that wait
    for the answer to their request. *)
Record Page := mkPage {
  ui : State;
  pending : nat }.

Definition start : Page := mkPage initial 0.

Inductive Event :=
| PickFile (selectedFile : option File.t)
| DropFile (droppedFile : option File.t)
| ClickCheckbox (id : string)
| ClickSelectAll
| ClickClearAll
| ClickSubmit
| Settle (net : FetchResult UploadReply.t).

Section Form.
Context `{JsonCodec}.

(** One event. A submit event reaches the handler only while the button is
    enabled; a fetch can settle only while a submission waits for it. *)
Definition step (ev : Event) (p : Page) : Page * list Effect :=
  let s := ui p in
  let plain (h : M State unit) :=
    let '(s', tr) := exec h s in (mkPage s' (pending p), tr) in
  match ev with
  | PickFile selectedFile => plain (handleFileSelect selectedFile)
  | DropFile droppedFile => plain (handleDrop droppedFile)
  | ClickCheckbox id =>
      plain (toggleSection s id (negb (Array_includes (selectedSections s) id)))
  | ClickSelectAll => plain selectAll
  | ClickClearAll => plain clearAll
  | ClickSubmit =>
      if submit_disabled s then (p, [])
      else
        match submit_until_fetch s s with
        | (inr (Some _), s', tr) => (mkPage s' (S (pending p)), tr)
        | (_, s', tr) => (mkPage s' (pending p), tr)
        end
  | Settle net =>
      match pending p with
      | O => (p, [])
      | S n => let '(s', tr) := exec (submit_after_fetch net) s in
               (mkPage s' n, tr)
      end
  end.

Fixpoint run (evs : list Event) (p : Page) : Page * list Effect :=
  match evs with
  | [] => (p, [])
  | ev :: evs' =>
      let '(p', tr) := step ev p in
      let '(p'', tr') := run evs' p' in
      (p'', tr ++ tr')
  end.
End Form.
End UploadSession.

(** ** The header of the results page *)

Module ResultsHeader.

(** The stat cards above the tabs: [state.stats && (() => {...})()]. Each
    entry is a label and the count shown under it. *)
Definition statsToShow (state : WorkflowState.t) : list (string * Z) :=
  match WorkflowState.stats state with
  | None => []
  | Some stats =>
      let selectedSections := default [] (WorkflowState.sections state) in
      (if Array_includes selectedSections "ndps"
          && Z.ltb 0 (Stats.ndps_count stats)
       then [("NDPS", Stats.ndps_count stats)] else [])
      ++ (if Array_includes selectedSections "bns"
             && Z.ltb 0 (Stats.bns_count stats)
          then [("BNS", Stats.bns_count stats)] else [])
      ++ (if Array_includes selectedSections "bnss"
             && Z.ltb 0 (Stats.bnss_count stats)
          then [("BNSS", Stats.bnss_count stats)] else [])
      ++ (if Array_includes selectedSections "bsa"
             && Z.ltb 0 (Stats.bsa_count stats)
          then [("BSA", Stats.bsa_count stats)] else [])
      ++ (if Z.ltb 0 (Stats.next_steps_count stats)
          then [("Next Steps", Stats.next_steps_count stats)] else [])
  end.

End ResultsHeader.

(** ** Vocabulary of the further properties *)

(** The identifiers of the sections a user can ask for. *)
Definition section_ids : list string := section_id <$> AVAILABLE_SECTIONS.

(** The sections already generated for the loaded workflow. *)
Definition existing_sections (s : ResultsPage.State) : list string :=
  match ResultsPage.state s with
  | Some st => default [] (WorkflowState.sections st)
  | None => []
  end.

(** The card of every element of [l] carries the element's 0-based position
    as its React key. *)
Definition keyed_by_position {A} (l : list A) (v : View) : Prop :=
  forall i x,
    l !! i = Some x ->
    exists card,
      column_of i v !! (i / 2) = Some card /\ key card = KeyNum (Z.of_nat i).

(** What [replace(/_/g, ' ')] does to one character. *)
Definition underscore_to_space (c : ascii) : ascii :=
  if Ascii.eqb c "_"%char then " "%char else c.

(** The number of navigations in a trace. *)
Definition count_navigations (tr : list Effect) : nat :=
  length (List.filter (fun e => match e with Navigate _ => true | _ => false end)
                      tr).

(** [isUploading] as a number. *)
Definition uploading_bit (s : UploadPage.State) : nat :=
  if UploadPage.isUploading s then 1 else 0.

(** The file input refuses the file: it is no PDF or it is too large. *)
Definition picker_refuses (f : File.t) : Prop :=
  File.type f <> "application/pdf" \/ (UploadPage.MAX_SIZE < File.size f)%Z.

(** The drop zone refuses the drop: there is no file or it is no PDF. *)
Definition drop_refuses (o : option File.t) : Prop :=
  forall f, o = Some f -> File.type f <> "application/pdf".

(** The selection of the upload page holds offered sections only, each at
    most once. *)
Definition valid_selection (sel : list string) : Prop :=
  NoDup sel /\ forall id, id ∈ sel -> id ∈ section_ids.

(** A file that is not a PDF. *)
Definition sample_image : File.t := File.mk "scan.png" "image/png" 1024.

(** A payload with statistics but no [sections] field. *)
Definition payload_stats_only : WorkflowState.t :=
  WorkflowState.mk None None None None None None None None None None
    None None None None None None None None None
    (Some (Stats.mk 3 2 0 1 4)).

(** A loaded workflow for which two sections were generated. *)
Definition payload_two_sections : WorkflowState.t :=
  WorkflowState.mk (Some "wf-1") (Some "fir.pdf") None None None None None
    None None None None None None None None None None None
    (Some ["ndps"; "timeline"]) None.

Definition loaded_two_sections : ResultsPage.State :=
  ResultsPage.mkState (Some payload_two_sections) false None true
    ["bns"; "evidence"] false false.

(** A payload with FIR facts, an empty NDPS list and next steps. *)
Definition payload_facts_and_steps : WorkflowState.t :=
  WorkflowState.mk None None (Some [("place", "Bus stand")]) (Some [])
    None None None None None None None None None
    (Some ["Collect CCTV footage"]) None None None None None None.

(** * Properties *)

(** ** The two-column partition *)

Section Columns.
Context {A : Type}.
Implicit Types (l : list A) (p q : A -> nat -> bool).

Lemma filter_from_ext p q idx l :
  (forall a j, p a j = q a j) -> filter_from p idx l = filter_from q idx l.
Proof.
  intros Hpq. revert idx.
  induction l as [|x l IH]; intros idx; simpl; [done|].
  rewrite Hpq, !IH. done.
Qed.

Lemma filter_from_shift p idx l :
  filter_from p (S idx) l = filter_from (fun a j => p a (S j)) idx l.
Proof.
  revert idx. induction l as [|x l IH]; intros idx; simpl; [done|].
  rewrite !IH. done.
Qed.

Lemma succ_even_test j : Nat.eqb (S j mod 2) 0 = Nat.eqb (j mod 2) 1.
Proof.
  pose proof (Nat.mod_upper_bound j 2).
  pose proof (Nat.mod_upper_bound (S j) 2).
  assert (S j mod 2 = (j mod 2 + 1) mod 2) as ->.
  { replace (S j) with (j + 1) by lia.
    rewrite Nat.Div0.add_mod_idemp_l. done. }
  destruct (j mod 2) as [|[|n]] eqn:E; simpl; try done; lia.
Qed.

Lemma succ_odd_test j : Nat.eqb (S j mod 2) 1 = Nat.eqb (j mod 2) 0.
Proof.
  pose proof (Nat.mod_upper_bound j 2).
  assert (S j mod 2 = (j mod 2 + 1) mod 2) as ->.
  { replace (S j) with (j + 1) by lia.
    rewrite Nat.Div0.add_mod_idemp_l. done. }
  destruct (j mod 2) as [|[|n]] eqn:E; simpl; try done; lia.
Qed.

Lemma leftColumn_cons x l : leftColumn (x :: l) = x :: rightColumn l.
Proof.
  unfold leftColumn, rightColumn, Array_filter. simpl.
  rewrite filter_from_shift. f_equal.
  apply filter_from_ext. intros _ j. apply succ_even_test.
Qed.

Lemma rightColumn_cons x l : rightColumn (x :: l) = leftColumn l.
Proof.
  unfold leftColumn, rightColumn, Array_filter. simpl.
  rewrite filter_from_shift.
  apply filter_from_ext. intros _ j. apply succ_odd_test.
Qed.

Lemma columns_lookup l k :
  leftColumn l !! k = l !! (2 * k) /\ rightColumn l !! k = l !! (2 * k + 1).
Proof.
  revert k. induction l as [|x l IH]; intros k.
  - split; done.
  - rewrite leftColumn_cons, rightColumn_cons. split.
    + destruct k as [|k]; [done|].
      replace (2 * S k) with (S (2 * k + 1)) by lia. simpl.
      apply IH.
    + replace (2 * k + 1) with (S (2 * k)) by lia. simpl. apply IH.
Qed.

Lemma columns_perm l : leftColumn l ++ rightColumn l ≡ₚ l.
Proof.
  induction l as [|x l IH]; [done|].
  rewrite leftColumn_cons, rightColumn_cons. simpl.
  constructor. rewrite (comm (++)). done.
Qed.

Lemma columns_interleave l : interleave (leftColumn l) (rightColumn l) = l.
Proof.
  assert (forall n l, length l <= n ->
                      interleave (leftColumn l) (rightColumn l) = l) as Hn.
  { clear l. induction n as [|n IH]; intros l Hlen.
    - destruct l; [done | simpl in Hlen; lia].
    - destruct l as [|x [|y l]]; [done | done |].
      rewrite (leftColumn_cons x), (rightColumn_cons y).
      rewrite (rightColumn_cons x), (leftColumn_cons y).
      cbn [interleave].
      rewrite IH; [done | simpl in Hlen; lia]. }
  by apply (Hn (length l)).
Qed.

Lemma elem_of_columns l x :
  x ∈ l <-> x ∈ leftColumn l \/ x ∈ rightColumn l.
Proof. rewrite <- (columns_perm l) at 1. apply elem_of_app. Qed.

(** The split computed by the two filters. *)
Lemma columns_partition l :
  (forall k, leftColumn l !! k = l !! (2 * k)) /\
  (forall k, rightColumn l !! k = l !! (2 * k + 1)) /\
  leftColumn l ++ rightColumn l ≡ₚ l /\
  length (leftColumn l) + length (rightColumn l) = length l /\
  interleave (leftColumn l) (rightColumn l) = l.
Proof.
  split_and!.
  - intros k. apply columns_lookup.
  - intros k. apply columns_lookup.
  - apply columns_perm.
  - rewrite <- length_app. by rewrite columns_perm.
  - apply columns_interleave.
Qed.
End Columns.

(** ** Tab selection *)

Section Tabs.
Import ResultsContent WorkflowState.

Lemma truthy_string_true s : truthy_string s = true <-> s <> "".
Proof.
  unfold truthy_string. rewrite negb_true_iff.
  destruct (String.eqb_spec s ""); split; congruence.
Qed.

Lemma truthy_object_true {A} (o : option A) :
  truthy_object o = true <-> is_Some o.
Proof.
  destruct o; simpl; split; try done; eauto.
Qed.

Lemma truthy_opt_length_true {A} (o : option (list A)) :
  truthy_opt_length o = true <-> nonempty_array o.
Proof.
  unfold nonempty_array. destruct o as [[|x l]|]; simpl; split;
    try done; try (intros (? & ? & ?); congruence).
  intros _. eexists. split; [done|done].
Qed.

Lemma truthy_opt_string_true o :
  truthy_opt_string o = true <-> nonempty_string o.
Proof.
  unfold nonempty_string. destruct o as [s|]; simpl.
  - rewrite truthy_string_true. split; [eauto|].
    intros (? & [= <-] & ?). done.
  - split; [done|]. intros (? & ? & ?). done.
Qed.

Lemma Array_includes_true sel s : Array_includes sel s = true <-> s ∈ sel.
Proof.
  unfold Array_includes. rewrite existsb_exists. split.
  - intros (y & Hy & Heq). apply String.eqb_eq in Heq as <-.
    by apply list_elem_of_In.
  - intros Hin. exists s. split; [by apply list_elem_of_In|].
    apply String.eqb_refl.
Qed.

(** The three shapes of the filter callback. *)
Lemma tab_filter_fir_facts sel lbl c s :
  tab_filter sel (mkTab "fir-facts" lbl c s) = c.
Proof. done. Qed.

Lemma tab_filter_unmapped sel i lbl c :
  i <> "fir-facts" ->
  tab_filter sel (mkTab i lbl c None) = true <-> c = true.
Proof.
  intros Hi. unfold tab_filter. simpl.
  destruct (String.eqb_spec i "fir-facts"); [done|].
  destruct c; simpl; [|done].
  destruct sel as [[|x sel]|]; done.
Qed.

Lemma tab_filter_mapped sel i lbl c s :
  i <> "fir-facts" -> s <> "" ->
  tab_filter sel (mkTab i lbl c (Some s)) = true <->
  c = true /\ section_selected sel s.
Proof.
  intros Hi Hs. unfold tab_filter, section_selected.
  cbn [id condition sectionId].
  destruct (String.eqb_spec i "fir-facts"); [done|].
  destruct c; cbn [negb]; [|split; [done|intros [? _]; done]].
  apply truthy_string_true in Hs. rewrite Hs. cbn [negb].
  destruct sel as [[|x sel]|]; cbn [length Nat.eqb].
  - split; [intros _|done]. split; [done|]. right; left; done.
  - rewrite Array_includes_true. split.
    + intros Hin. split; [done|]. right; right. eauto.
    + intros [_ [?|[?|(sel' & [= <-] & Hin)]]]; done.
  - split; [intros _|done]. split; [done|]. left; done.
Qed.

(** The section of every mapped tab is an entry of [SECTION_TO_TAB_MAP]
    for that tab. *)
Lemma sectionId_in_map st :
  Forall (fun tab => match sectionId tab with
                     | Some sid => (sid, id tab) ∈ SECTION_TO_TAB_MAP
                     | None => True
                     end) (allTabs st).
Proof.
  unfold allTabs, SECTION_TO_TAB_MAP.
  repeat (constructor;
          [cbn; try exact I;
           repeat first [apply list_elem_of_here | apply list_elem_of_further]
          |]).
  constructor.
Qed.

Lemma allTabs_ids st : id <$> allTabs st = TAB_ORDER.
Proof. done. Qed.

Lemma TAB_ORDER_NoDup : NoDup TAB_ORDER.
Proof. apply (bool_decide_unpack _). vm_compute. done. Qed.

Lemma filter_sublist {B} (f : B -> bool) (l : list B) :
  sublist (List.filter f l) l.
Proof.
  induction l as [|x l IH]; simpl; [constructor|].
  destruct (f x); by constructor.
Qed.

Lemma rendered_tabs_sublist st sel : sublist (rendered_tabs st sel) TAB_ORDER.
Proof.
  unfold rendered_tabs, tabs. rewrite <- (allTabs_ids st).
  apply fmap_sublist, filter_sublist.
Qed.

Lemma NoDup_fmap_eq {B C} (f : B -> C) (l : list B) x y :
  NoDup (f <$> l) -> x ∈ l -> y ∈ l -> f x = f y -> x = y.
Proof.
  induction l as [|a l IH]; simpl; intros Hnd Hx Hy Hf.
  - by apply elem_of_nil in Hx.
  - apply NoDup_cons in Hnd as [Ha Hnd].
    apply elem_of_cons in Hx as [->|Hx]; apply elem_of_cons in Hy as [->|Hy].
    + done.
    + exfalso. apply Ha. rewrite Hf. by apply list_elem_of_fmap_2.
    + exfalso. apply Ha. rewrite <- Hf. by apply list_elem_of_fmap_2.
    + by apply IH.
Qed.

(** A tab of [allTabs] is on the screen exactly when the callback keeps
    it. *)
Lemma rendered_iff_kept st sel tab :
  tab ∈ allTabs st ->
  id tab ∈ rendered_tabs st sel <-> tab_filter sel tab = true.
Proof.
  intros Hin. unfold rendered_tabs, tabs. split.
  - intros (tab' & Hid & Hin')%list_elem_of_fmap_1.
    apply list_elem_of_In, filter_In in Hin' as [Hin' Hkept].
    apply list_elem_of_In in Hin'.
    assert (tab' = tab) as <-; [|done].
    eapply (NoDup_fmap_eq id); [|done|done|done].
    rewrite allTabs_ids. apply TAB_ORDER_NoDup.
  - intros Hkept. apply list_elem_of_fmap_2.
    apply list_elem_of_In, filter_In. split; [|done].
    by apply list_elem_of_In.
Qed.

Lemma rendered_tab st sel i lbl c s :
  mkTab i lbl c s ∈ allTabs st ->
  i ∈ rendered_tabs st sel <-> tab_filter sel (mkTab i lbl c s) = true.
Proof. apply (rendered_iff_kept st sel (mkTab i lbl c s)). Qed.

Local Ltac tab_case :=
  etrans;
  [ eapply rendered_tab; unfold allTabs;
    repeat first [ apply list_elem_of_here | apply list_elem_of_further ]
  | first [ rewrite tab_filter_fir_facts
          | rewrite tab_filter_mapped by done
          | rewrite tab_filter_unmapped by done ];
    rewrite ?andb_true_iff, ?truthy_object_true, ?truthy_opt_length_true,
      ?truthy_opt_string_true; tauto ].

(** C1 (as amended). The FIR Facts tab is rendered exactly when
    [fir_facts] is present, whatever the selection. Every other tab is
    rendered exactly when its data condition holds and, if it is mapped
    to a section, the selection is absent, empty or lists that section;
    the Recommendations tab has no section and needs its data only. The
    data condition is the truthiness of the tab's value: the array is
    present and non-empty for the array-length tabs, the object is present
    for the object tabs, the evidence checklist is present and not the
    empty string, and both [dos] and [donts] are present (empty or not)
    for Do's & Don'ts. The rendered tabs keep the order of [allTabs]. *)
Theorem tabs_rendered_iff st sel :
  let shown t := t ∈ rendered_tabs st sel in
  (shown "fir-facts" <-> is_Some (fir_facts st)) /\
  (shown "ndps" <->
     nonempty_array (ndps_sections st) /\ section_selected sel "ndps") /\
  (shown "bns" <->
     nonempty_array (bns_sections st) /\ section_selected sel "bns") /\
  (shown "bnss" <->
     nonempty_array (bnss_sections st) /\ section_selected sel "bnss") /\
  (shown "bsa" <->
     nonempty_array (bsa_sections st) /\ section_selected sel "bsa") /\
  (shown "investigation" <->
     nonempty_array (investigation_plan st) /\
     section_selected sel "investigation_plan") /\
  (shown "timeline" <->
     is_Some (investigation_and_legal_timeline st) /\
     section_selected sel "timeline") /\
  (shown "evidence" <->
     nonempty_string (evidence_checklist st) /\
     section_selected sel "evidence") /\
  (shown "dos-donts" <->
     is_Some (dos st) /\ is_Some (donts st) /\
     section_selected sel "dos_and_donts") /\
  (shown "weaknesses" <->
     is_Some (potential_prosecution_weaknesses st) /\
     section_selected sel "weaknesses") /\
  (shown "defence-rebuttal" <->
     nonempty_array (defence_perspective_rebuttal st) /\
     section_selected sel "defence_rebuttal") /\
  (shown "court-summary" <->
     is_Some (summary_for_the_court st) /\
     section_selected sel "court_summary") /\
  (shown "chargesheet" <->
     is_Some (chargesheet st) /\ section_selected sel "chargesheet") /\
  (shown "next-steps" <-> nonempty_array (next_steps st)) /\
  (shown "historical" <->
     nonempty_array (historical_cases st) /\
     section_selected sel "historical_cases") /\
  (forall t, shown t -> t ∈ TAB_ORDER) /\
  sublist (rendered_tabs st sel) TAB_ORDER.
Proof.
  intros shown. unfold shown.
  split_and!; try tab_case.
  - intros t Ht. eapply sublist_subseteq; [apply rendered_tabs_sublist|done].
  - apply rendered_tabs_sublist.
Qed.

(** C1, as stated, fails for the Evidence tab: with the payload
    [{ evidence_checklist: "" }] and no selection the field is present
    and the selection lets it through, yet no tab is rendered. *)
Lemma evidence_tab_hidden_for_empty_checklist :
  is_Some (evidence_checklist payload_empty_checklist) /\
  section_selected None "evidence" /\
  rendered_tabs payload_empty_checklist None = [].
Proof. split_and!; [by eexists | by left | reflexivity]. Qed.

(** Empty [dos] and [donts] arrays still bring up the Do's & Don'ts tab. *)
Lemma dos_donts_tab_shown_for_empty_arrays :
  rendered_tabs payload_empty_dos_donts None = ["dos-donts"].
Proof. reflexivity. Qed.
End Tabs.

(** ** The upload page *)

Section Upload.
Import UploadPage.
Context `{JsonCodec}.

Lemma MAX_SIZE_bytes : MAX_SIZE = 10485760%Z.
Proof. reflexivity. Qed.

Lemma handleFileSelect_run s f :
  exec (handleFileSelect (Some f)) s =
  if negb (String.eqb (File.type f) "application/pdf")
  then (mkState (file s) (selectedSections s) (isUploading s)
          (Some "Please select a PDF file"), [])
  else if Z.ltb MAX_SIZE (File.size f)
  then (mkState (file s) (selectedSections s) (isUploading s)
          (Some "File size exceeds 10MB limit"), [])
  else (mkState (Some f) (selectedSections s) (isUploading s) None, []).
Proof.
  unfold handleFileSelect.
  destruct (negb _); [done|]. destruct (Z.ltb _ _); done.
Qed.

Lemma handleDrop_run s f :
  exec (handleDrop (Some f)) s =
  if String.eqb (File.type f) "application/pdf"
  then (mkState (Some f) (selectedSections s) (isUploading s) None, [])
  else (mkState (file s) (selectedSections s) (isUploading s)
          (Some "Please drop a PDF file"), []).
Proof. unfold handleDrop. destruct (String.eqb _ _); done. Qed.

(** C8. A file chosen through the file input is accepted (stored, error
    cleared) exactly when its type is application/pdf and its size is at
    most 10*1024*1024 bytes, and is otherwise refused with the message of
    the failed check; a dropped file is accepted exactly when its type is
    application/pdf, whatever its size. So a PDF above 10 MB is refused by
    the picker and accepted by the drop zone. Neither handler has an effect
    outside the component state. *)
Theorem picker_and_drop_preconditions :
  (forall s f,
     let r := exec (handleFileSelect (Some f)) s in
     r.2 = [] /\
     (accepts s r.1 f <->
      File.type f = "application/pdf" /\ (File.size f <= 10 * 1024 * 1024)%Z) /\
     (File.type f <> "application/pdf" ->
      rejects s r.1 "Please select a PDF file") /\
     (File.type f = "application/pdf" ->
      (10 * 1024 * 1024 < File.size f)%Z ->
      rejects s r.1 "File size exceeds 10MB limit")) /\
  (forall s f,
     let r := exec (handleDrop (Some f)) s in
     r.2 = [] /\
     (accepts s r.1 f <-> File.type f = "application/pdf") /\
     (File.type f <> "application/pdf" ->
      rejects s r.1 "Please drop a PDF file")) /\
  (File.type large_pdf = "application/pdf" /\
   (10 * 1024 * 1024 < File.size large_pdf)%Z /\
   forall s,
     rejects s (exec (handleFileSelect (Some large_pdf)) s).1
       "File size exceeds 10MB limit" /\
     accepts s (exec (handleDrop (Some large_pdf)) s).1 large_pdf).
Proof.
  split_and!.
  - intros s f r. subst r. rewrite handleFileSelect_run.
    unfold accepts, rejects.
    destruct (String.eqb_spec (File.type f) "application/pdf") as [Hty|Hty];
      cbn [negb].
    + destruct (Z.ltb_spec MAX_SIZE (File.size f)) as [Hsz|Hsz];
        rewrite MAX_SIZE_bytes in Hsz; cbn [fst snd].
      * split_and!; [done| |done|done].
        split; [intros [=]|lia].
      * split_and!; [done| |done|lia].
        split; [intros _; split; [done|lia]|done].
    + cbn [fst snd]. split_and!; [done| |done|done].
      split; [intros [=]|intros [? _]; done].
  - intros s f r. subst r. rewrite handleDrop_run.
    unfold accepts, rejects.
    destruct (String.eqb_spec (File.type f) "application/pdf") as [Hty|Hty];
      cbn [fst snd].
    + split_and!; done.
    + split_and!; [done| |done]. split; [intros [=]|done].
  - done.
  - done.
  - intros s. split; reflexivity.
Qed.

Lemma handleSubmit_no_sections s f net :
  file s = Some f -> selectedSections s = [] ->
  exec (handleSubmit s net) s =
  (mkState (Some f) [] true
     (Some "Please select at least one section to analyze"), []).
Proof.
  destruct s as [fl sel up err]. cbn [file selectedSections].
  intros -> ->. reflexivity.
Qed.

(** C9. Submitting with a selected file and an empty section selection
    sends no request, sets the error 'Please select at least one section
    to analyze' and leaves [isUploading] true although no upload is
    pending; the submit button is disabled in that state, so the rendered
    form does not reach this path. *)
Theorem submit_without_sections s f net :
  file s = Some f -> selectedSections s = [] ->
  let r := exec (handleSubmit s net) s in
  count_requests (fun _ => true) r.2 = 0 /\
  r.2 = [] /\
  error r.1 = Some "Please select at least one section to analyze" /\
  isUploading r.1 = true /\
  submit_disabled s = true.
Proof.
  intros Hf Hsel r. subst r.
  rewrite (handleSubmit_no_sections s f net Hf Hsel).
  split_and!; try done.
  unfold submit_disabled. rewrite Hsel. cbn. apply orb_true_r.
Qed.

(** C2 (as amended). A submission with a selected file and a non-empty
    selection sends exactly one request, a POST to /upload whose form data
    carries the file and the JSON-encoded selection. If the body of the
    response can be read as JSON: when the response is ok and the body has
    a true [success], the client navigates to /results/{workflow_id};
    otherwise it sets the error to the body's [detail], or to
    'Error processing PDF. Please try again.' when there is none, and stops
    uploading. If the fetch throws, or the body of the response cannot be
    read as JSON, it sets the network error message, stops uploading and
    does not navigate. The file and the selection are not touched. *)
Theorem upload_contract s f net :
  file s = Some f -> selectedSections s <> [] ->
  let request :=
    mkRequest POST "/upload"
      [ ("file", FormFile f);
        ("sections", FormString (JSON_stringify (selectedSections s))) ] in
  let r := exec (handleSubmit s net) s in
  count_requests (fun _ => true) r.2 = 1 /\
  head r.2 = Some (Fetch request) /\
  file r.1 = file s /\
  selectedSections r.1 = selectedSections s /\
  match net with
  | inr (mkResponse ok (inr data)) =>
      if ok && UploadReply.success data
      then r.2 = [ Fetch request;
                   Navigate ("/results/"
                             +:+ template (UploadReply.workflow_id data)) ]
           /\ error r.1 = None
      else r.2 = [ Fetch request ]
           /\ error r.1 =
                Some (or_default (UploadReply.detail data)
                        "Error processing PDF. Please try again.")
           /\ isUploading r.1 = false
  | inl _ | inr (mkResponse _ (inl _)) =>
      r.2 = [ Fetch request ]
      /\ error r.1 =
           Some "Network error. Please check your connection and try again."
      /\ isUploading r.1 = false
  end.
Proof.
  destruct s as [fl sel up err]. cbn [file selectedSections].
  intros -> Hsel. destruct sel as [|x sel]; [done|].
  destruct net as [e|[ok [e|data]]]; cbn.
  - split_and!; reflexivity.
  - split_and!; reflexivity.
  - destruct data as [success wid detail].
    destruct ok, success; cbn; split_and!; reflexivity.
Qed.
End Upload.

Lemma submit_without_sections_witness :
  UploadPage.file nothing_selected = Some sample_pdf /\
  UploadPage.selectedSections nothing_selected = [] /\
  let r := exec (@UploadPage.handleSubmit identifier_json nothing_selected
                   accepted_reply) nothing_selected in
  count_requests (fun _ => true) r.2 = 0 /\
  r.2 = [] /\
  UploadPage.error r.1 =
    Some "Please select at least one section to analyze" /\
  UploadPage.isUploading r.1 = true /\
  UploadPage.submit_disabled nothing_selected = true.
Proof.
  split; [reflexivity|]. split; [reflexivity|].
  apply (@submit_without_sections identifier_json nothing_selected
           sample_pdf accepted_reply); reflexivity.
Defined.

Lemma upload_contract_witness :
  UploadPage.file ready_to_upload = Some sample_pdf /\
  UploadPage.selectedSections ready_to_upload <> [] /\
  let request :=
    mkRequest POST "/upload"
      [ ("file", FormFile sample_pdf);
        ("sections", FormString (identifier_json ["ndps"; "timeline"])) ] in
  let r := exec (@UploadPage.handleSubmit identifier_json ready_to_upload
                   accepted_reply) ready_to_upload in
  count_requests (fun _ => true) r.2 = 1 /\
  head r.2 = Some (Fetch request) /\
  UploadPage.file r.1 = Some sample_pdf /\
  UploadPage.selectedSections r.1 = ["ndps"; "timeline"] /\
  r.2 = [ Fetch request; Navigate "/results/wf-1" ] /\
  UploadPage.error r.1 = None.
Proof.
  split; [reflexivity|]. split; [discriminate|].
  apply (@upload_contract identifier_json ready_to_upload sample_pdf
           accepted_reply); [reflexivity | discriminate].
Defined.

(** C2, as stated, fails for a response whose body is not JSON (a 500
    with an empty body): the fetch did not throw and the response is not
    an ok one with a true [success], yet the error shown is neither the
    body's [detail] nor the fallback but the network error, because
    [response.json()] rejects inside the same [try]. *)
Lemma unreadable_reply_reports_network_error :
  let request :=
    mkRequest POST "/upload"
      [ ("file", FormFile sample_pdf);
        ("sections", FormString (identifier_json ["ndps"; "timeline"])) ] in
  let r := exec (@UploadPage.handleSubmit identifier_json ready_to_upload
                   server_error) ready_to_upload in
  UploadPage.file ready_to_upload = Some sample_pdf /\
  UploadPage.selectedSections ready_to_upload = ["ndps"; "timeline"] /\
  (exists response : Response UploadReply.t,
     server_error = inr response /\ ok response = false) /\
  r.2 = [ Fetch request ] /\
  UploadPage.error r.1 =
    Some "Network error. Please check your connection and try again." /\
  UploadPage.error r.1 <> Some "Error processing PDF. Please try again.".
Proof.
  split_and!; try reflexivity; [|discriminate].
  eexists. split; reflexivity.
Qed.

(** ** The results page *)

Section Results.
Import ResultsPage.
Context `{JsonCodec}.

Lemma nonempty_string_cases (w : string) :
  w <> "" -> exists a w', w = String a w'.
Proof. destruct w; [done | eauto]. Qed.

(** C7 (as amended). A click on Generate Document with a workflow id,
    rendered while no download is in progress, issues exactly one request,
    a GET to /api/document/{workflow_id}. If the response is ok and its
    body can be read as a blob, the blob is offered through a link whose
    download name is FIR_Report_{workflow_id}.docx; if the response is not
    ok, or the fetch or the reading of the body throws, no link is clicked
    (the failure is logged and shown in an alert). In every case the
    handler leaves [isDownloading] false, whatever it was when the handler
    ran, and changes nothing else of the state. A click rendered while
    [isDownloading] is true does nothing. *)
Theorem download_contract :
  (forall snap s w net,
     w <> "" -> isDownloading snap = false ->
     let request := mkRequest GET ("/api/document/" +:+ w) [] in
     let a blob := mkAnchor blob ("FIR_Report_" +:+ w +:+ ".docx") in
     let failure err :=
       [ Fetch request;
         ConsoleError "Error downloading document:" err;
         Alert "Failed to generate document. Please try again." ] in
     let r := exec (handleDownload snap (Some w) net) s in
     count_requests (fun _ => true) r.2 = 1 /\
     head r.2 = Some (Fetch request) /\
     r.1 = mkState (state s) (loading s) (error s) (showAddSections s)
             (selectedNewSections s) (isGenerating s) false /\
     match net with
     | inr (mkResponse true (inr blob)) =>
         r.2 = [ Fetch request; CreateObjectURL blob; AppendChild (a blob);
                 Click (a blob); RevokeObjectURL blob; RemoveChild (a blob) ]
     | inr (mkResponse true (inl e)) => r.2 = failure e
     | inr (mkResponse false _) =>
         r.2 = failure (new_Error "Failed to generate document")
     | inl e => r.2 = failure e
     end) /\
  (forall snap s w net,
     isDownloading snap = true ->
     exec (handleDownload snap w net) s = (s, [])).
Proof.
  split.
  - intros snap s w net (a & w' & ->)%nonempty_string_cases.
    destruct snap as [st0 ld0 err0 sh0 sel0 gen0 dl0]. cbn [isDownloading].
    intros ->. destruct s as [st ld err sh sel gen dl].
    destruct net as [e|[[|] [e|blob]]]; split_and!; reflexivity.
  - intros snap s w net.
    destruct snap as [st0 ld0 err0 sh0 sel0 gen0 dl0]. cbn [isDownloading].
    intros ->. unfold handleDownload. cbn [isDownloading].
    rewrite orb_true_r. reflexivity.
Qed.

Lemma useEffect_trace w net s :
  w <> "" ->
  (exec (useEffect (Some w) net) s).2 =
  [ Fetch (mkRequest GET ("/api/results/" +:+ w) []) ].
Proof.
  intros (a & w' & ->)%nonempty_string_cases.
  destruct net as [e|[[|] [e|data]]]; reflexivity.
Qed.

Lemma count_requests_app p tr tr' :
  count_requests p (tr ++ tr') = count_requests p tr + count_requests p tr'.
Proof. unfold count_requests. by rewrite List.filter_app, length_app. Qed.

Lemma count_requests_cons_le p e tr :
  count_requests p (e :: tr) <= 1 + count_requests p tr.
Proof.
  unfold count_requests. simpl. destruct e; simpl; try lia.
  destruct (p r); simpl; lia.
Qed.

Lemma count_requests_post_upload u body tr :
  count_requests (is_request GET u) (Fetch (mkRequest POST "/upload" body) :: tr)
  = count_requests (is_request GET u) tr.
Proof. reflexivity. Qed.

Lemma count_requests_document w tr :
  count_requests (is_request GET (results_url w))
    (Fetch (mkRequest GET (document_url w) []) :: tr)
  = count_requests (is_request GET (results_url w)) tr.
Proof. destruct w; reflexivity. Qed.

(** Replace the run of a handler by its final state and trace. *)
Local Ltac eval_exec :=
  match goal with
  | |- context [exec ?h ?s] =>
      let r := eval cbv in (exec h s) in
      change (exec h s) with r; cbn [fst snd]
  end.

Local Ltac count_trace :=
  first [ cbn; lia
        | etrans; [apply count_requests_cons_le | cbn; lia] ].

(** The results requests one event can cause. *)
Lemma handle_results_requests w ev s :
  count_requests (is_request GET (results_url w)) (exec (handle w ev s) s).2
  <= (if is_page_load ev then 1 else 0)
     + (if is_generate_sections ev then 1 else 0).
Proof.
  destruct s as [st ld err sh sel gen dl].
  destruct ev as [net|nu nr|net| | |i c|]; cbn [handle is_page_load
    is_generate_sections].
  - unfold useEffect. destruct (has_workflowId w); [|cbn; lia].
    destruct net as [e|[[|] [e|data]]]; unfold fetchResults, results_url;
      eval_exec; count_trace.
  - unfold handleAddSections. cbn [selectedNewSections].
    destruct (negb (has_workflowId w) || Nat.eqb (length sel) 0);
      [cbn; lia|].
    destruct nu as [e|[up_ok [e|[success wid detail]]]].
    + unfold results_url at 2. eval_exec.
      rewrite count_requests_post_upload. count_trace.
    + unfold results_url at 2. eval_exec.
      rewrite count_requests_post_upload. count_trace.
    + destruct up_ok, success;
        try (unfold results_url at 2; eval_exec;
             rewrite count_requests_post_upload; count_trace).
      destruct nr as [e|[[|] [e|data]]];
        unfold results_url at 2; eval_exec;
        rewrite count_requests_post_upload; count_trace.
  - unfold handleDownload. cbn [isDownloading].
    destruct (negb (has_workflowId w) || dl); [cbn; lia|].
    destruct net as [e|[[|] [e|blob]]];
      pose proof (count_requests_document w) as Hdoc;
      unfold document_url in *; eval_exec; rewrite Hdoc; cbn; lia.
  - eval_exec. cbn. lia.
  - eval_exec. cbn. lia.
  - destruct c; eval_exec; cbn; lia.
  - eval_exec. cbn. lia.
Qed.

Lemma run_results_requests w evs s :
  count_requests (is_request GET (results_url w)) (run w evs s).2
  <= length (List.filter is_page_load evs)
     + length (List.filter is_generate_sections evs).
Proof.
  revert s. induction evs as [|ev evs IH]; intros s; [cbn; lia|].
  cbn [run List.filter].
  pose proof (handle_results_requests w ev s) as Hev.
  destruct (exec (handle w ev s) s) as [s' tr] eqn:Hexec.
  specialize (IH s'). destruct (run w evs s') as [s'' tr'].
  cbn [snd] in *. rewrite count_requests_app.
  destruct (is_page_load ev), (is_generate_sections ev); cbn [length]; lia.
Qed.

(** C4 (as amended). The results page does not poll. Loading the page
    with a workflow id sends exactly one GET to
    /api/results/{workflow_id}, whatever the answer; and over any sequence
    of page events the number of such requests is at most the number of
    page loads plus the number of clicks on Generate Sections (whose
    handler refreshes the results after a successful upload call). No
    other event, and no timer, sends one. *)
Theorem results_fetched_once_per_load :
  (forall w net s,
     w <> "" ->
     (exec (useEffect (Some w) net) s).2 =
     [ Fetch (mkRequest GET ("/api/results/" +:+ w) []) ]) /\
  (forall w evs s,
     count_requests (is_request GET (results_url w)) (run w evs s).2
     <= length (List.filter is_page_load evs)
        + length (List.filter is_generate_sections evs)) /\
  (forall w s net_upload net_results,
     upload_failed net_upload ->
     count_requests (is_request GET (results_url w))
       (exec (handleAddSections s w net_upload net_results) s).2 = 0).
Proof.
  split_and!.
  - intros w net s Hw. by apply useEffect_trace.
  - apply run_results_requests.
  - intros w [st ld err sh sel gen dl] nu nr Hfail.
    unfold handleAddSections. cbn [selectedNewSections].
    destruct (negb (has_workflowId w) || Nat.eqb (length sel) 0);
      [reflexivity|].
    destruct nu as [e|[up_ok [e|[success wid detail]]]].
    + unfold results_url at 2. eval_exec. reflexivity.
    + unfold results_url at 2. eval_exec. reflexivity.
    + cbn in Hfail. destruct up_ok, success; try discriminate;
        unfold results_url at 2; eval_exec; reflexivity.
Qed.

(** C6 (as amended). On a failed upload, a failed initial results fetch
    and a failed upload call of Generate Sections, the handler sets the
    error string and clears its in-progress flag ([isUploading],
    [loading], [isGenerating]); nothing else changes and nothing but the
    request is sent. The string is displayed: in the banner of the upload
    page, and on the error screen of the results page. A failed document
    download sets no error string: the failure is logged to the console
    and shown in an alert, and the state stays as it was with
    [isDownloading] false. On all four paths the selected file, the section
    selections and the loaded workflow state are left as they were. *)
Theorem failure_only_reports :
  (forall s f net,
     UploadPage.file s = Some f -> UploadPage.selectedSections s <> [] ->
     upload_failed net ->
     exists msg request,
       let s' :=
         UploadPage.mkState (UploadPage.file s)
           (UploadPage.selectedSections s) false (Some msg) in
       exec (UploadPage.handleSubmit s net) s = (s', [Fetch request]) /\
       UploadPage.error_banner s' = Some msg) /\
  (forall s w net,
     w <> "" -> fetch_failed net ->
     exists msg request,
       let s' :=
         mkState (state s) false (Some msg) (showAddSections s)
           (selectedNewSections s) (isGenerating s) (isDownloading s) in
       exec (useEffect (Some w) net) s = (s', [Fetch request]) /\
       (msg <> "" -> screen s' = ErrorScreen msg)) /\
  (forall s w net_upload net_results,
     w <> "" -> selectedNewSections s <> [] -> upload_failed net_upload ->
     exists msg request,
       let s' :=
         mkState (state s) (loading s) (Some msg) (showAddSections s)
           (selectedNewSections s) false (isDownloading s) in
       exec (handleAddSections s (Some w) net_upload net_results) s
       = (s', [Fetch request]) /\
       (loading s = false -> screen s' = ErrorScreen msg)) /\
  (forall s w net,
     w <> "" -> isDownloading s = false -> fetch_failed net ->
     exists err request,
       exec (handleDownload s (Some w) net) s =
       (s, [ Fetch request;
             ConsoleError "Error downloading document:" err;
             Alert "Failed to generate document. Please try again." ])).
Proof.
  assert (forall d fallback, fallback <> "" ->
            truthy_string (or_default d fallback) = true) as Hdefault.
  { intros [d|] fallback Hfb; cbn; [|by apply truthy_string_true].
    destruct (truthy_string d) eqn:Hd; [done|by apply truthy_string_true]. }
  split_and!.
  - intros [fl sel up err] f net. cbn [UploadPage.file
      UploadPage.selectedSections]. intros -> Hsel Hfail.
    destruct sel as [|x sel]; [done|].
    destruct net as [e|[ok [e|[success wid detail]]]];
      try (do 2 eexists; split; reflexivity).
    cbn in Hfail.
    destruct ok, success; try discriminate;
      (do 2 eexists; split; [reflexivity|]);
      unfold UploadPage.error_banner; cbn [UploadPage.error];
      by rewrite Hdefault.
  - intros [st ld err sh sel gen dl] w net
      (a & w' & ->)%nonempty_string_cases Hfail.
    assert (forall msg, msg <> "" ->
              screen (mkState st false (Some msg) sh sel gen dl)
              = ErrorScreen msg) as Hscreen.
    { intros msg Hmsg%truthy_string_true. unfold screen. cbn.
      rewrite Hmsg. by destruct st. }
    destruct net as [e|[[|] [e|data]]]; try done;
      do 2 eexists; (split; [reflexivity|]); apply Hscreen.
  - intros [st ld err sh sel gen dl] w nu nr
      (a & w' & ->)%nonempty_string_cases.
    cbn [selectedNewSections loading]. intros Hsel Hfail.
    assert (forall msg, truthy_string msg = true -> ld = false ->
              screen (mkState st ld (Some msg) sh sel false dl)
              = ErrorScreen msg) as Hscreen.
    { intros msg Hmsg ->. unfold screen. cbn. rewrite Hmsg. by destruct st. }
    destruct sel as [|x sel]; [done|].
    destruct nu as [e|[ok [e|[success wid detail]]]];
      try (do 2 eexists; split; [reflexivity|by apply Hscreen]).
    cbn in Hfail.
    destruct ok, success; try discriminate;
      (do 2 eexists; split; [reflexivity|]);
      apply Hscreen; by apply Hdefault.
  - intros [st ld err sh sel gen dl] w net
      (a & w' & ->)%nonempty_string_cases.
    cbn [isDownloading]. intros -> Hfail.
    destruct net as [e|[[|] [e|blob]]]; try done;
      do 2 eexists; reflexivity.
Qed.
End Results.

(** C4, as stated, fails: loading the results page of workflow wf-1 and
    then opening and closing the section picker sends one results request
    in all, not a series of them. *)
Lemma page_load_fetches_results_once :
  (@ResultsPage.run identifier_json (Some "wf-1")
     [ ResultsPage.PageLoad results_reply; ResultsPage.ClickAddMore;
       ResultsPage.ClickCancel ] ResultsPage.initial).2
  = [ Fetch (mkRequest GET "/api/results/wf-1" []) ] /\
  count_requests (is_request GET "/api/results/wf-1")
    (@ResultsPage.run identifier_json (Some "wf-1")
       [ ResultsPage.PageLoad results_reply; ResultsPage.ClickAddMore;
         ResultsPage.ClickCancel ] ResultsPage.initial).2 = 1.
Proof. split; reflexivity. Qed.

(** C6, as stated, fails for the document download: when the server
    answers with a failure status, no error string is set (the page state
    is what it was, its error still absent); the failure goes to the
    console and to an alert. *)
Lemma download_failure_sets_no_error :
  exec (ResultsPage.handleDownload loaded_results (Some "wf-1") server_error)
       loaded_results
  = (loaded_results,
     [ Fetch (mkRequest GET "/api/document/wf-1" []);
       ConsoleError "Error downloading document:"
         (new_Error "Failed to generate document");
       Alert "Failed to generate document. Please try again." ]) /\
  ResultsPage.error loaded_results = None.
Proof. split; reflexivity. Qed.

Lemma download_contract_witness :
  let r := exec (ResultsPage.handleDownload loaded_results (Some "wf-1")
                   document_reply) results_while_downloading in
  let a := mkAnchor sample_docx "FIR_Report_wf-1.docx" in
  count_requests (fun _ => true) r.2 = 1 /\
  ResultsPage.isDownloading results_while_downloading = true /\
  r.1 = loaded_results /\
  r.2 = [ Fetch (mkRequest GET "/api/document/wf-1" []);
          CreateObjectURL sample_docx; AppendChild a; Click a;
          RevokeObjectURL sample_docx; RemoveChild a ].
Proof.
  pose proof (proj1 download_contract loaded_results
                results_while_downloading "wf-1" document_reply) as Hd.
  destruct Hd as (Hcount & _ & Hstate & Htrace); [discriminate|reflexivity|].
  split_and!; [exact Hcount | reflexivity | exact Hstate | exact Htrace].
Defined.

(** C7, as stated, fails for an ok response whose body cannot be read:
    it is logged and reported like any other failure, no object URL is
    made and no link is clicked. *)
Lemma truncated_document_is_not_downloaded :
  let r := exec (ResultsPage.handleDownload loaded_results (Some "wf-1")
                   truncated_document) loaded_results in
  (exists response : Response Blob,
     truncated_document = inr response /\ ok response = true) /\
  r.1 = loaded_results /\
  r.2 = [ Fetch (mkRequest GET "/api/document/wf-1" []);
          ConsoleError "Error downloading document:"
            (mkExn true "Failed to fetch");
          Alert "Failed to generate document. Please try again." ].
Proof.
  split_and!; try reflexivity. eexists. split; reflexivity.
Qed.

(** ** Positions recovered with indexOf *)

Section IndexOf.
Context {A : Type} `{StrictEqRefl A}.
Implicit Types (l : list A) (x : A).

Lemma indexOf_from_found l x (base : Z) i :
  l !! i = Some x ->
  exists j, j <= i /\ indexOf_from x base l = (base + Z.of_nat j)%Z /\
            first_match l x j.
Proof.
  revert base i. induction l as [|y l IH]; intros base i Hi; [done|].
  cbn [indexOf_from]. destruct (strict_eq y x) eqn:Hyx.
  - exists 0. split_and!; [lia | lia |]. split; [by exists y|].
    intros j' y' Hlt. lia.
  - destruct i as [|i].
    { injection Hi as ->. rewrite strict_eq_refl in Hyx. done. }
    destruct (IH (base + 1)%Z i Hi) as (j & Hle & Hidx & (Hhit & Hmiss)).
    exists (S j). split_and!; [lia | lia |]. split; [done|].
    intros [|j'] y' Hlt Hy'.
    + injection Hy' as <-. done.
    + apply (Hmiss j'); [lia | done].
Qed.

Lemma indexOf_first l x i :
  l !! i = Some x ->
  exists j, j <= i /\ Array_indexOf l x = Z.of_nat j /\ first_match l x j.
Proof.
  intros Hi. destruct (indexOf_from_found l x 0 i Hi) as (j & ? & ? & ?).
  exists j. split_and!; [done | | done].
  unfold Array_indexOf. lia.
Qed.

Lemma first_match_distinct l x i j :
  pairwise_distinct l -> l !! i = Some x -> first_match l x j -> j = i.
Proof.
  intros Hd Hi [(y & Hj & Hyx) _]. by apply (Hd j i y x).
Qed.
End IndexOf.

Lemma even_double m : Nat.even (2 * m) = true /\ (2 * m) / 2 = m.
Proof.
  split; [rewrite Nat.even_mul; reflexivity|].
  rewrite Nat.mul_comm. apply Nat.div_mul. lia.
Qed.

Lemma odd_double m : Nat.even (2 * m + 1) = false /\ (2 * m + 1) / 2 = m.
Proof.
  split; [rewrite Nat.even_add, Nat.even_mul; reflexivity|].
  rewrite (Nat.mul_comm 2 m), Nat.div_add_l by lia. cbn. lia.
Qed.

(** The card of the item at original position [i] is the [i/2]-th card of
    its column. *)
Lemma column_card {A} (card : A -> Card) heading (l : list A) i x :
  l !! i = Some x ->
  column_of i (ColumnsView heading (card <$> leftColumn l)
                 (card <$> rightColumn l)) !! (i / 2) = Some (card x).
Proof.
  intros Hi. unfold column_of.
  destruct (Nat.Even_or_Odd i) as [[m ->]|[m ->]].
  - destruct (even_double m) as [-> ->]. cbn [left_cards].
    rewrite list_lookup_fmap, (proj1 (columns_lookup l m)), Hi. done.
  - destruct (odd_double m) as [-> ->]. cbn [right_cards].
    rewrite list_lookup_fmap, (proj2 (columns_lookup l m)), Hi. done.
Qed.

Section Numbering.
Import ResultsContent.
Context `{Marked}.

Lemma when_string_text_numbers o :
  omap leaf_number (when_string o (fun d => [Text d])) = [].
Proof.
  destruct o as [d|]; [|done]. cbn. destruct (truthy_string d); done.
Qed.

(** C10 (as amended). The investigation plan shows next to each step the
    number [plan.indexOf(step) + 1]: for the step at 0-based position [i]
    this is one more than the first position [j <= i] holding an element
    [===] to it, so it is the step's 1-based position when the elements
    are pairwise distinct, and the 1-based position of the first equal
    element otherwise. The next-steps list recovers the same index
    [steps.indexOf(step)] but uses it only as the React key of the item:
    it shows no number. *)
Theorem numbering_by_indexOf :
  (forall (plan : list (Obj PlanPoint.t)) i point,
     plan !! i = Some point ->
     exists card j,
       column_of i (InvestigationPlanSection plan) !! (i / 2) = Some card /\
       card_numbers card = [ (Z.of_nat j + 1)%Z ] /\
       key card = KeyNum (Z.of_nat j) /\
       j <= i /\ first_match plan point j /\
       (pairwise_distinct plan -> j = i)) /\
  (forall (steps : list string) i step,
     steps !! i = Some step ->
     exists card j,
       column_of i (NextStepsSection steps) !! (i / 2) = Some card /\
       card_numbers card = [] /\
       key card = KeyNum (Z.of_nat j) /\
       j <= i /\ first_match steps step j /\
       (pairwise_distinct steps -> j = i)).
Proof.
  split.
  - intros plan i point Hi.
    destruct (indexOf_first plan point i Hi) as (j & Hle & Hidx & Hfirst).
    eexists _, j. split_and!.
    + unfold InvestigationPlanSection. cbv zeta. by apply column_card.
    + unfold card_numbers. cbn [content]. rewrite Hidx.
      rewrite !omap_app, when_string_text_numbers. reflexivity.
    + cbn [key]. by rewrite Hidx.
    + done.
    + done.
    + intros Hd. by apply (first_match_distinct plan point i j).
  - intros steps i step Hi.
    destruct (indexOf_first steps step i Hi) as (j & Hle & Hidx & Hfirst).
    eexists _, j. split_and!.
    + unfold NextStepsSection. cbv zeta. by apply column_card.
    + reflexivity.
    + cbn [key]. by rewrite Hidx.
    + done.
    + done.
    + intros Hd. by apply (first_match_distinct steps step i j).
Qed.
End Numbering.

(** C10, as stated, fails for the next-steps list: its items carry no
    number at all (the recovered index is their key only). *)
Lemma next_steps_show_no_number :
  let view :=
    @ResultsContent.NextStepsSection paragraph_marked
      [ "Collect CCTV footage"; "Send samples to FSL" ] in
  card_numbers <$> view_cards view = [ []; [] ] /\
  key <$> view_cards view = [ KeyNum 0; KeyNum 1 ].
Proof. split; reflexivity. Qed.

(** In a plan that holds the same object at positions 1 and 2, both cards
    show the number 2. *)
Lemma numbering_by_indexOf_witness :
  plan_with_repeat !! 2 = Some step_seize /\
  exists card j,
    column_of 2 (@ResultsContent.InvestigationPlanSection paragraph_marked
                   plan_with_repeat) !! (2 / 2) = Some card /\
    card_numbers card = [ (Z.of_nat j + 1)%Z ] /\
    key card = KeyNum (Z.of_nat j) /\
    j <= 2 /\ first_match plan_with_repeat step_seize j /\
    (pairwise_distinct plan_with_repeat -> j = 2).
Proof.
  split; [reflexivity|].
  apply (proj1 (@numbering_by_indexOf paragraph_marked) plan_with_repeat 2
           step_seize).
  reflexivity.
Defined.

(** Two steps with equal fields are still two objects: each shows its own
    position. *)
Lemma equal_steps_keep_their_numbers :
  let twin := mkObj 3 (fields step_seize) in
  let view :=
    @ResultsContent.InvestigationPlanSection paragraph_marked
      [ step_seize; twin ] in
  card_numbers <$> left_cards view = [ [1%Z] ] /\
  card_numbers <$> right_cards view = [ [2%Z] ].
Proof. split; reflexivity. Qed.

Lemma repeated_step_numbers :
  let view :=
    @ResultsContent.InvestigationPlanSection paragraph_marked
      plan_with_repeat in
  card_numbers <$> left_cards view = [ [1%Z]; [2%Z] ] /\
  card_numbers <$> right_cards view = [ [2%Z] ].
Proof. split; reflexivity. Qed.

(** ** Markdown and plain text in the sections *)

Section Markdown.
Import ResultsContent.
Context `{Marked}.
Local Set Warnings "-clear-no-such-hyp".

Lemma leaf_in_columns {A} (card : A -> Card) heading (l : list A) x leaf :
  x ∈ l -> leaf ∈ content (card x) ->
  leaf ∈ view_leaves (ColumnsView heading (card <$> leftColumn l)
                        (card <$> rightColumn l)).
Proof.
  intros Hx Hleaf. cbn [view_leaves view_cards].
  apply list_elem_of_bind. exists (card x). split; [done|].
  apply elem_of_app.
  apply elem_of_columns in Hx as [Hx|Hx]; [left|right];
    by apply list_elem_of_fmap_2.
Qed.

Lemma imap_bind_content {A} (card : nat -> A -> Card) (h : A -> list Leaf)
    (l : list A) :
  (forall i x, content (card i x) = h x) ->
  imap card l ≫= content = l ≫= h.
Proof.
  revert card. induction l as [|x l IH]; intros card Hcard; [done|].
  cbn. rewrite Hcard. f_equal. apply IH. intros i y. apply Hcard.
Qed.

Lemma bind_singleton_fmap {A B} (g : A -> B) (l : list A) :
  l ≫= (fun x => [g x]) = g <$> l.
Proof. induction l as [|x l IH]; [done|]. cbn. by rewrite IH. Qed.

Lemma when_nonempty_fmap (g : string -> Leaf) l :
  when_nonempty l (fmap g) = g <$> l.
Proof. destruct l; reflexivity. Qed.

(** C5 (as amended). The sections convert these fields with
    [marked.parse] before display: the values of [fir_facts], the statute
    section descriptions and relevance, the investigation plan
    descriptions, the timeline text, the evidence checklist, the next
    steps, the historical case summaries, the defence and rebuttal points,
    and in the court summary and the chargesheet the core issue, recovery,
    quantity, judicial balance, conscious-possession, procedural
    compliance, legal position and prayer entries. The do and don't items
    and the prosecution-weakness headings and details are not converted:
    they are displayed as plain text, verbatim; so are the section
    numbers, the titles of plan steps and historical cases, and the case
    title, date and place and safeguards of the court summary and the
    chargesheet. *)
Theorem markdown_rendering :
  (forall facts e,
     e ∈ facts -> md e.2 ∈ view_leaves (FirFactsSection facts)) /\
  (forall title sections s,
     s ∈ sections ->
     md (StatuteSection.section_description (fields s))
       ∈ view_leaves (SectionsSection title sections) /\
     md (StatuteSection.why_section_is_relevant (fields s))
       ∈ view_leaves (SectionsSection title sections)) /\
  (forall plan p,
     p ∈ plan ->
     md (PlanPoint.description (fields p))
       ∈ view_leaves (InvestigationPlanSection plan)) /\
  (forall t, md (Timeline.timeline t) ∈ view_leaves (TimelineSection t)) /\
  (forall checklist, view_leaves (EvidenceSection checklist) = [md checklist]) /\
  (forall steps step,
     step ∈ steps -> md step ∈ view_leaves (NextStepsSection steps)) /\
  (forall cases c,
     c ∈ cases ->
     md (HistoricalCase.summary (fields c))
       ∈ view_leaves (HistoricalCasesSection cases)) /\
  (forall data item p,
     item ∈ data ->
     p ∈ DefenceRebuttal.defence_perspective item
         ++ DefenceRebuttal.rebuttal item ->
     md p ∈ view_leaves (DefenceRebuttalSection data)) /\
  (forall summary p,
     p ∈ [ CourtSummary.core_issue summary; CourtSummary.recovery summary;
           CourtSummary.quantity summary;
           CourtSummary.judicial_balance summary ]
         ++ CourtSummary.conscious_possession_proven summary
         ++ CourtSummary.procedural_compliance summary
         ++ CourtSummary.legal_position summary
         ++ CourtSummary.prosecution_prayer summary ->
     md p ∈ view_leaves (CourtSummarySection summary)) /\
  (forall chargesheet p,
     p ∈ [ Chargesheet.core_issue chargesheet;
           Chargesheet.recovery chargesheet;
           Chargesheet.quantity chargesheet;
           Chargesheet.judicial_balance chargesheet ]
         ++ Chargesheet.conscious_possession_proven chargesheet
         ++ Chargesheet.procedural_compliance chargesheet
         ++ Chargesheet.legal_position chargesheet
         ++ Chargesheet.prosecution_prayer chargesheet ->
     md p ∈ view_leaves (ChargesheetSection chargesheet)) /\
  (forall dos donts,
     view_leaves (DosDontsSection dos donts) = Text <$> (dos ++ donts)) /\
  (forall weaknesses,
     view_leaves (WeaknessesSection weaknesses) =
     (leftColumn weaknesses ++ rightColumn weaknesses)
       ≫= (fun e => [Text e.1; Text e.2])) /\
  (forall title sections s,
     s ∈ sections ->
     Text (StatuteSection.section_number (fields s))
       ∈ view_leaves (SectionsSection title sections)) /\
  (forall plan p,
     p ∈ plan ->
     Text (PlanPoint.title (fields p))
       ∈ view_leaves (InvestigationPlanSection plan)) /\
  (forall cases c,
     c ∈ cases ->
     Text (HistoricalCase.title (fields c))
       ∈ view_leaves (HistoricalCasesSection cases)) /\
  (forall summary p,
     p ∈ [ CourtSummary.case_title summary;
           CourtSummary.date_and_place summary ]
         ++ CourtSummary.safeguards summary ->
     Text p ∈ view_leaves (CourtSummarySection summary)) /\
  (forall chargesheet p,
     p ∈ [ Chargesheet.case_title chargesheet;
           Chargesheet.date_and_place chargesheet ]
         ++ Chargesheet.safeguards chargesheet ->
     Text p ∈ view_leaves (ChargesheetSection chargesheet)).
Proof.
  split_and!.
  - intros facts e He. unfold FirFactsSection. cbv zeta.
    apply (leaf_in_columns _ _ _ e); [done|]. cbn. set_solver.
  - intros title sections s Hs. unfold SectionsSection. cbv zeta.
    split; (apply (leaf_in_columns _ _ _ s); [done|]); cbn; set_solver.
  - intros plan p Hp. unfold InvestigationPlanSection. cbv zeta.
    apply (leaf_in_columns _ _ _ p); [done|]. cbn. set_solver.
  - intros t. cbn. set_solver.
  - done.
  - intros steps step Hs. unfold NextStepsSection. cbv zeta.
    apply (leaf_in_columns _ _ _ step); [done|]. cbn. set_solver.
  - intros cases c Hc. unfold HistoricalCasesSection. cbv zeta.
    apply (leaf_in_columns _ _ _ c); [done|]. cbn. set_solver.
  - intros data item p Hitem Hp. unfold DefenceRebuttalSection. cbv zeta.
    cbn [view_leaves view_cards].
    rewrite (imap_bind_content _
               (fun item => (md <$> DefenceRebuttal.defence_perspective item)
                            ++ (md <$> DefenceRebuttal.rebuttal item)));
      [|done].
    apply list_elem_of_bind. exists item. split; [|done].
    rewrite <- fmap_app. by apply list_elem_of_fmap_2.
  - intros summary p Hp. unfold CourtSummarySection.
    cbn [view_leaves]. rewrite !when_nonempty_fmap. set_solver.
  - intros chargesheet p Hp. unfold ChargesheetSection. cbv zeta.
    cbn [view_leaves]. rewrite !when_nonempty_fmap. set_solver.
  - intros dos donts. unfold DosDontsSection. cbv zeta.
    cbn [view_leaves view_cards]. rewrite bind_app, fmap_app.
    rewrite !(imap_bind_content _ (fun x => [Text x])) by done.
    by rewrite !bind_singleton_fmap.
  - intros weaknesses. unfold WeaknessesSection. cbv zeta.
    cbn [view_leaves view_cards]. rewrite !bind_app.
    by rewrite !(imap_bind_content _ (fun e => [Text e.1; Text e.2])) by done.
  - intros title sections s Hs. unfold SectionsSection. cbv zeta.
    apply (leaf_in_columns _ _ _ s); [done|]. cbn. set_solver.
  - intros plan p Hp. unfold InvestigationPlanSection. cbv zeta.
    apply (leaf_in_columns _ _ _ p); [done|]. cbn. set_solver.
  - intros cases c Hc. unfold HistoricalCasesSection. cbv zeta.
    apply (leaf_in_columns _ _ _ c); [done|]. cbn. set_solver.
  - intros summary p Hp. unfold CourtSummarySection.
    cbn [view_leaves]. rewrite !when_nonempty_fmap. set_solver.
  - intros chargesheet p Hp. unfold ChargesheetSection. cbv zeta.
    cbn [view_leaves]. rewrite !when_nonempty_fmap. set_solver.
Qed.
End Markdown.

(** C5, as stated, fails for the do and don't items and the weakness
    details: Markdown in them reaches the screen unconverted, whatever
    [marked.parse] does. *)
Lemma dos_and_weaknesses_shown_verbatim :
  view_leaves (ResultsContent.DosDontsSection
                 ["Seal **all** samples"] ["Do not delay"])
  = [ Text "Seal **all** samples"; Text "Do not delay" ] /\
  view_leaves (ResultsContent.WeaknessesSection
                 [("Delay", "FIR lodged *late*")])
  = [ Text "Delay"; Text "FIR lodged *late*" ] /\
  view_leaves <$> @ResultsContent.tab_content paragraph_marked
                    payload_dos_donts "dos-donts"
  = [ [ Text "Seal **all** samples"; Text "Do not delay" ] ].
Proof. split_and!; reflexivity. Qed.

(** ** The two-column sections *)

Section Layout.
Import ResultsContent.
Context `{Marked}.


End Layout.

(** ** The amended properties on concrete inputs *)

Lemma results_fetched_once_per_load_witness :
  "wf-1" <> "" /\
  (exec (ResultsPage.useEffect (Some "wf-1") server_error)
        ResultsPage.initial).2
  = [ Fetch (mkRequest GET "/api/results/wf-1" []) ].
Proof.
  split; [discriminate|].
  apply (proj1 (@results_fetched_once_per_load identifier_json) "wf-1"
           server_error ResultsPage.initial).
  discriminate.
Defined.

Lemma failure_only_reports_witness :
  "wf-1" <> "" /\
  fetch_failed (@server_error WorkflowState.t) /\
  exists msg request,
    let s' := ResultsPage.mkState None false (Some msg) false [] false false in
    exec (ResultsPage.useEffect (Some "wf-1") server_error)
         ResultsPage.initial = (s', [Fetch request]) /\
    (msg <> "" -> ResultsPage.screen s' = ResultsPage.ErrorScreen msg).
Proof.
  split; [discriminate|]. split; [exact I|].
  apply (proj1 (proj2 (@failure_only_reports identifier_json))
           ResultsPage.initial "wf-1" server_error); [discriminate|exact I].
Defined.

Lemma markdown_rendering_witness :
  let facts := [ ("date", "12 May"); ("place", "Near the bus stand") ] in
  ("place", "Near the bus stand") ∈ facts /\
  InnerHTML (paragraph_marked "Near the bus stand")
    ∈ view_leaves (@ResultsContent.FirFactsSection paragraph_marked facts).
Proof.
  intros facts. split.
  - apply list_elem_of_further, list_elem_of_here.
  - apply (proj1 (@markdown_rendering paragraph_marked) facts
             ("place", "Near the bus stand")).
    apply list_elem_of_further, list_elem_of_here.
Defined.

Lemma picker_and_drop_preconditions_witness :
  File.type sample_pdf = "application/pdf" /\
  (File.size sample_pdf <= 10 * 1024 * 1024)%Z /\
  accepts UploadPage.initial
    (exec (UploadPage.handleFileSelect (Some sample_pdf)) UploadPage.initial).1
    sample_pdf.
Proof.
  split; [reflexivity|]. split; [discriminate|].
  apply (proj1 picker_and_drop_preconditions UploadPage.initial sample_pdf).
  split; [reflexivity|discriminate].
Defined.

(** * Further properties of the client *)

(** ** Tabs and their content *)

Section TabContent.
Import ResultsContent WorkflowState.
Context `{Marked}.

Lemma tab_filter_condition sel tab :
  tab_filter sel tab = true -> condition tab = true.
Proof.
  unfold tab_filter. destruct (String.eqb (id tab) "fir-facts"); [done|].
  by destruct (condition tab).
Qed.

Lemma rendered_condition st sel t :
  t ∈ rendered_tabs st sel ->
  exists tab, tab ∈ allTabs st /\ id tab = t /\ condition tab = true.
Proof.
  intros (tab & -> & Hin)%list_elem_of_fmap_1.
  apply list_elem_of_In, filter_In in Hin as [Hin Hkept].
  exists tab. split_and!; [by apply list_elem_of_In | done |].
  by apply tab_filter_condition in Hkept.
Qed.

Local Ltac split_fields Hc :=
  repeat match type of Hc with
         | context [truthy_object ?x] => destruct x; cbn in Hc
         | context [truthy_opt_length ?x] => destruct x as [[|? ?]|]; cbn in Hc
         | context [truthy_opt_string ?x] => destruct x; cbn in Hc
         end.

Lemma rendered_tab_has_content st sel t :
  t ∈ rendered_tabs st sel -> exists v, tab_content st t = [v].
Proof.
  intros (tab & Htab & <- & Hc)%rendered_condition.
  unfold allTabs in Htab. unfold tab_content, show.
  repeat (apply elem_of_cons in Htab as [->|Htab]);
    [..|by apply elem_of_nil in Htab];
    cbn [condition id] in *; split_fields Hc; try discriminate;
    cbn [truthy_opt_string]; rewrite ?Hc; eexists; reflexivity.
Qed.

(** X1. Every tab on the screen has a section to show: when a tab is
    rendered, the content area for it holds exactly one section. *)
Theorem rendered_tab_shows_one_section st sel t :
  t ∈ rendered_tabs st sel -> exists v, tab_content st t = [v].
Proof. apply rendered_tab_has_content. Qed.

Lemma show_length {B} t i (value : option B) truthy render :
  length (show t i value truthy render) <= 1.
Proof.
  unfold show. destruct (String.eqb t i && truthy); [|cbn; lia].
  destruct value; cbn; lia.
Qed.

Lemma show_other {B} t i (value : option B) truthy render :
  t <> i -> show t i value truthy render = [].
Proof.
  intros Hne. unfold show.
  destruct (String.eqb_spec t i); [done|reflexivity].
Qed.

Lemma tab_content_unknown st t : t ∉ TAB_ORDER -> tab_content st t = [].
Proof.
  intros Hout. unfold tab_content.
  unfold TAB_ORDER in Hout. rewrite !not_elem_of_cons in Hout.
  destruct_and!. rewrite !show_other by done. reflexivity.
Qed.

(** X2. The content area never holds two sections at once, and for an
    active tab that is none of the fifteen tab identifiers it is empty. *)
Theorem tab_content_at_most_one :
  (forall st t, length (tab_content st t) <= 1) /\
  (forall st t, t ∉ TAB_ORDER -> tab_content st t = []).
Proof.
  split; [|apply tab_content_unknown].
  intros st t. destruct (decide (t ∈ TAB_ORDER)) as [Hin|Hout].
  - unfold TAB_ORDER in Hin.
    repeat (apply elem_of_cons in Hin as [->|Hin]);
      [..|by apply elem_of_nil in Hin];
      unfold tab_content, show; simpl; repeat case_match; simpl; lia.
  - rewrite tab_content_unknown by done. cbn. lia.
Qed.
End TabContent.

Lemma rendered_tab_shows_one_section_witness :
  "next-steps" ∈ rendered_tabs payload_facts_and_steps (Some ["ndps"]) /\
  exists v,
    @ResultsContent.tab_content paragraph_marked payload_facts_and_steps
      "next-steps" = [v].
Proof.
  assert ("next-steps" ∈ rendered_tabs payload_facts_and_steps (Some ["ndps"]))
    as Hin by apply list_elem_of_further, list_elem_of_here.
  split; [exact Hin|].
  exact (@rendered_tab_shows_one_section paragraph_marked
           payload_facts_and_steps (Some ["ndps"]) "next-steps" Hin).
Defined.

Section InitialTab.
Import ResultsContent WorkflowState.
Context `{Marked}.

Lemma tab_id_truthy t : t ∈ TAB_ORDER -> truthy_string t = true.
Proof.
  unfold TAB_ORDER. intros Hin.
  repeat (apply elem_of_cons in Hin as [->|Hin]); try reflexivity.
  by apply elem_of_nil in Hin.
Qed.

Lemma initial_activeTab_head st sel :
  initial_activeTab st sel = default "" (head (rendered_tabs st sel)).
Proof.
  unfold initial_activeTab.
  pose proof (rendered_tabs_sublist st sel) as Hsub. unfold rendered_tabs in *.
  destruct (tabs st sel) as [|tab l]; [reflexivity|]. cbn in *.
  rewrite tab_id_truthy; [done|].
  eapply sublist_subseteq; [exact Hsub|]. apply list_elem_of_here.
Qed.

(** X3. The tab that is active when the results first appear is the first
    rendered tab: FIR Facts whenever [fir_facts] is present; it is the
    empty identifier exactly when no tab is rendered; and when some tab is
    rendered, the initial tab is one of them and has a section to show. *)
Theorem initial_tab_is_first_rendered st sel :
  initial_activeTab st sel = default "" (head (rendered_tabs st sel)) /\
  (is_Some (fir_facts st) -> initial_activeTab st sel = "fir-facts") /\
  (initial_activeTab st sel = "" <-> rendered_tabs st sel = []) /\
  (rendered_tabs st sel <> [] ->
   initial_activeTab st sel ∈ rendered_tabs st sel /\
   exists v, tab_content st (initial_activeTab st sel) = [v]).
Proof.
  pose proof (initial_activeTab_head st sel) as Hhead.
  pose proof (rendered_tabs_sublist st sel) as Hsub.
  split_and!.
  - done.
  - intros [facts Hfacts]. rewrite Hhead.
    unfold rendered_tabs, tabs, allTabs. cbn [List.filter].
    rewrite tab_filter_fir_facts, Hfacts. reflexivity.
  - rewrite Hhead. destruct (rendered_tabs st sel) as [|t l]; [done|].
    cbn. split; [|done]. intros ->.
    assert (truthy_string "" = true) as Hbad; [|done].
    apply tab_id_truthy. eapply sublist_subseteq; [exact Hsub|].
    apply list_elem_of_here.
  - intros Hne. rewrite Hhead.
    destruct (rendered_tabs st sel) as [|t l] eqn:Htabs; [done|].
    cbn. assert (t ∈ rendered_tabs st sel) as Hin.
    { rewrite Htabs. apply list_elem_of_here. }
    split; [by rewrite <- Htabs|].
    by apply (rendered_tab_has_content st sel).
Qed.
End InitialTab.

(** ** Labels of the FIR facts *)

Lemma replace_underscores_get s n :
  String.get n (replace_underscores s) = underscore_to_space <$> String.get n s.
Proof.
  revert n. induction s as [|c s IH]; intros n; [done|].
  destruct n as [|n]; cbn; [done|]. apply IH.
Qed.

Lemma underscore_to_space_clean c : underscore_to_space c <> "_"%char.
Proof.
  unfold underscore_to_space. destruct (Ascii.eqb_spec c "_"); [done|done].
Qed.

Lemma underscore_to_space_idem c :
  underscore_to_space (underscore_to_space c) = underscore_to_space c.
Proof.
  unfold underscore_to_space.
  destruct (Ascii.eqb_spec c "_") as [->|Hne]; [reflexivity|].
  by destruct (Ascii.eqb_spec c "_").
Qed.

(** X4. The label of a FIR fact is its key with every underscore replaced
    by a space and every other character kept in place: the label has the
    length of the key, holds no underscore, and replacing again changes
    nothing. *)
Theorem fact_label_has_no_underscore s :
  String.length (replace_underscores s) = String.length s /\
  (forall n, String.get n (replace_underscores s)
             = underscore_to_space <$> String.get n s) /\
  (forall n, String.get n (replace_underscores s) <> Some "_"%char) /\
  replace_underscores (replace_underscores s) = replace_underscores s.
Proof.
  split_and!.
  - induction s as [|c s IH]; cbn; [done|]. by rewrite IH.
  - apply replace_underscores_get.
  - intros n. rewrite replace_underscores_get.
    destruct (String.get n s) as [c|]; cbn; [|done].
    intros [= Hc]. by apply underscore_to_space_clean in Hc.
  - induction s as [|c s IH]; cbn; [done|].
    fold (underscore_to_space c).
    fold (underscore_to_space (underscore_to_space c)).
    by rewrite underscore_to_space_idem, IH.
Qed.

(** ** React keys of the two-column cards *)

Section PositionKeys.
Context {A : Type} `{StrictEqRefl A}.
Implicit Types (l : list A).

Lemma indexOf_position l x i :
  pairwise_distinct l -> l !! i = Some x -> Array_indexOf l x = Z.of_nat i.
Proof.
  intros Hd Hi.
  destruct (indexOf_first l x i Hi) as (j & _ & -> & Hfirst).
  by rewrite (first_match_distinct l x i j Hd Hi Hfirst).
Qed.

Lemma indexOf_NoDup l :
  pairwise_distinct l -> NoDup (Array_indexOf l <$> l).
Proof.
  intros Hd. apply NoDup_alt. intros i j z.
  rewrite !list_lookup_fmap.
  intros (x & Hi & ->)%fmap_Some (y & Hj & Heq)%fmap_Some.
  rewrite (indexOf_position l x i Hd Hi) in Heq.
  rewrite (indexOf_position l y j Hd Hj) in Heq. lia.
Qed.

Lemma keys_by_position (card : A -> Card) heading l :
  (forall x, key (card x) = KeyNum (Array_indexOf l x)) ->
  pairwise_distinct l ->
  let v := ColumnsView heading (card <$> leftColumn l)
             (card <$> rightColumn l) in
  keyed_by_position l v /\ NoDup (key <$> view_cards v).
Proof.
  intros Hkey Hd v. split.
  - intros i x Hi. exists (card x). split; [by apply column_card|].
    by rewrite Hkey, (indexOf_position l x i Hd Hi).
  - subst v. cbn [view_cards]. rewrite <- fmap_app, <- list_fmap_compose.
    rewrite (columns_perm l).
    rewrite (list_fmap_ext (key ∘ card) (KeyNum ∘ Array_indexOf l) l)
      by (intros; apply Hkey).
    rewrite list_fmap_compose. apply NoDup_fmap_2; [|by apply indexOf_NoDup].
    intros a b [=]. done.
Qed.

Lemma keys_of_equal_elements (card : A -> Card) heading l i j x :
  l !! i = Some x -> l !! j = Some x ->
  let v := ColumnsView heading (card <$> leftColumn l)
             (card <$> rightColumn l) in
  exists c1 c2,
    column_of i v !! (i / 2) = Some c1 /\
    column_of j v !! (j / 2) = Some c2 /\ key c1 = key c2.
Proof.
  intros Hi Hj v. exists (card x), (card x).
  split_and!; [by apply column_card | by apply column_card | done].
Qed.
End PositionKeys.

Section SectionKeys.
Import ResultsContent.
Context `{Marked}.

(** X5. In the statute sections, the historical cases, the next steps and
    the investigation plan, where a card's React key is
    [list.indexOf(element)]: when no two elements of the list are [===],
    every card's key is the element's original 0-based position and no two
    cards of the section share a key. When the same step occurs at two
    positions of the next-steps list, the two cards get the same key. *)
Theorem card_keys_are_positions :
  (forall title sections,
     pairwise_distinct sections ->
     keyed_by_position sections (SectionsSection title sections) /\
     NoDup (key <$> view_cards (SectionsSection title sections))) /\
  (forall cases,
     pairwise_distinct cases ->
     keyed_by_position cases (HistoricalCasesSection cases) /\
     NoDup (key <$> view_cards (HistoricalCasesSection cases))) /\
  (forall steps,
     pairwise_distinct steps ->
     keyed_by_position steps (NextStepsSection steps) /\
     NoDup (key <$> view_cards (NextStepsSection steps))) /\
  (forall plan,
     pairwise_distinct plan ->
     keyed_by_position plan (InvestigationPlanSection plan) /\
     NoDup (key <$> view_cards (InvestigationPlanSection plan))) /\
  (forall steps i j step,
     steps !! i = Some step -> steps !! j = Some step ->
     exists c1 c2,
       column_of i (NextStepsSection steps) !! (i / 2) = Some c1 /\
       column_of j (NextStepsSection steps) !! (j / 2) = Some c2 /\
       key c1 = key c2).
Proof.
  split_and!.
  - intros title sections Hd. by apply keys_by_position.
  - intros cases Hd. by apply keys_by_position.
  - intros steps Hd. by apply keys_by_position.
  - intros plan Hd. by apply keys_by_position.
  - intros steps i j step Hi Hj.
    by apply (keys_of_equal_elements _ _ steps i j step).
Qed.
End SectionKeys.

Lemma card_keys_are_positions_witness :
  let steps := [ "Collect CCTV footage"; "Send samples to FSL";
                 "Record statements" ] in
  let v := @ResultsContent.NextStepsSection paragraph_marked steps in
  pairwise_distinct steps /\
  keyed_by_position steps v /\ NoDup (key <$> view_cards v).
Proof.
  intros steps v.
  assert (pairwise_distinct steps) as Hd.
  { intros i j x y Hi Hj Heq. apply String.eqb_eq in Heq. subst y.
    destruct i as [|[|[|i]]], j as [|[|[|j]]]; cbn in Hi, Hj;
      try discriminate; try reflexivity; congruence. }
  split; [exact Hd|].
  exact (proj1 (proj2 (proj2 (@card_keys_are_positions paragraph_marked)))
           steps Hd).
Defined.

(** ** Balance of the two columns *)

Lemma columns_length {A} (l : list A) :
  length (leftColumn l) = (length l + 1) / 2 /\
  length (rightColumn l) = length l / 2.
Proof.
  induction l as [|x l [IHl IHr]]; [done|].
  rewrite leftColumn_cons, rightColumn_cons. cbn [length].
  rewrite IHl, IHr. split; [|f_equal; lia].
  replace (S (length l) + 1) with (length l + 1 * 2) by lia.
  rewrite Nat.div_add by lia. lia.
Qed.

(** X6. The left column holds the rounded-up half of the elements and the
    right column the rounded-down half: the left column is never the
    shorter one and is longer by at most one card. *)
Theorem columns_are_balanced (A : Type) (l : list A) :
  length (leftColumn l) = (length l + 1) / 2 /\
  length (rightColumn l) = length l / 2 /\
  length (rightColumn l) <= length (leftColumn l) <= length (rightColumn l) + 1.
Proof.
  destruct (columns_length l) as [Hl Hr].
  pose proof (columns_partition l) as (_ & _ & _ & Hsum & _).
  split_and!; [done | done | |].
  - rewrite Hl, Hr. apply Nat.Div0.div_le_mono. lia.
  - assert (2 * (length l / 2) <= length l)
      by apply (Nat.Div0.mul_div_le (length l) 2).
    assert (length l < 2 * (length l / 2) + 2).
    { pose proof (Nat.div_mod_eq (length l) 2).
      pose proof (Nat.mod_upper_bound (length l) 2). lia. }
    lia.
Qed.

(** ** Sections and the tabs they gate *)

Section SectionTabs.
Import ResultsContent.

Local Ltac find_elem :=
  (apply list_elem_of_here) + (apply list_elem_of_further; find_elem).

Local Ltac in_list :=
  repeat first [ apply list_elem_of_here | apply list_elem_of_further ].

(** X7. The section identifiers offered on the upload page and the tabs
    of the results agree: every offered section gates exactly one tab, the
    one [SECTION_TO_TAB_MAP] names for it, and every tab that is gated by
    a section is gated by an offered one. *)
Theorem offered_sections_gate_one_tab st :
  (forall s,
     s ∈ section_ids ->
     exists tab,
       tab ∈ allTabs st /\ sectionId tab = Some s /\
       (s, id tab) ∈ SECTION_TO_TAB_MAP /\
       forall tab', tab' ∈ allTabs st -> sectionId tab' = Some s -> tab' = tab)
  /\
  (forall tab s,
     tab ∈ allTabs st -> sectionId tab = Some s -> s ∈ section_ids).
Proof.
  split.
  - intros s Hs. unfold section_ids in Hs. cbn in Hs.
    repeat (apply elem_of_cons in Hs as [->|Hs]).
    all: try solve [apply elem_of_nil in Hs; done].
    all: solve
      [ (eexists; split; [unfold allTabs; find_elem|]);
        (split; [reflexivity|]);
        (split; [unfold SECTION_TO_TAB_MAP; cbn [id]; in_list|]);
        intros tab' Hin' Hs'; unfold allTabs in Hin';
        repeat (apply elem_of_cons in Hin' as [->|Hin']);
        cbn in Hs'; try discriminate; try reflexivity;
        apply elem_of_nil in Hin'; done ].
  - intros tab s Hin Hs. unfold allTabs in Hin.
    repeat (apply elem_of_cons in Hin as [->|Hin]).
    all: try solve [apply elem_of_nil in Hin; done].
    all: cbn in Hs; try discriminate.
    all: injection Hs as <-; unfold section_ids; cbn; in_list.
Qed.
End SectionTabs.

(** ** The upload form over sequences of events *)

Section UploadFormRuns.
Import UploadPage UploadForm.
Context `{JsonCodec}.

Lemma section_ids_NoDup : NoDup section_ids.
Proof. apply (bool_decide_unpack _). vm_compute. done. Qed.

Lemma handleFileSelect_frame o s :
  let s' := (exec (handleFileSelect o) s).1 in
  selectedSections s' = selectedSections s /\ isUploading s' = isUploading s /\
  (exec (handleFileSelect o) s).2 = [].
Proof.
  destruct s as [fl sel up err], o as [f|]; [|done].
  unfold handleFileSelect.
  destruct (negb _); [done|]. destruct (Z.ltb _ _); done.
Qed.

Lemma handleDrop_frame o s :
  let s' := (exec (handleDrop o) s).1 in
  selectedSections s' = selectedSections s /\ isUploading s' = isUploading s /\
  (exec (handleDrop o) s).2 = [].
Proof.
  destruct s as [fl sel up err], o as [f|]; [|done].
  unfold handleDrop. destruct (String.eqb _ _); done.
Qed.

Lemma toggleSection_run s id checked :
  exec (toggleSection s id checked) s =
  (mkState (file s)
     (if checked then selectedSections s ++ [id]
      else List.filter (fun x => negb (String.eqb x id)) (selectedSections s))
     (isUploading s) (error s), []).
Proof. destruct s, checked; reflexivity. Qed.

Lemma handleSubmit_selection s net :
  selectedSections (exec (handleSubmit s net) s).1 = selectedSections s.
Proof.
  destruct s as [[f|] sel up err]; [|done].
  destruct sel as [|x sel]; [done|].
  destruct net as [e|[ok [e|[success wid detail]]]]; try done.
  by destruct ok, success.
Qed.

Lemma filter_out_spec (id : string) (sel : list string) x :
  x ∈ List.filter (fun y => negb (String.eqb y id)) sel <-> x ∈ sel /\ x <> id.
Proof.
  rewrite !list_elem_of_In, filter_In, negb_true_iff, String.eqb_neq,
    <- !list_elem_of_In. done.
Qed.

Lemma filter_out_NoDup (id : string) (sel : list string) :
  NoDup sel -> NoDup (List.filter (fun y => negb (String.eqb y id)) sel).
Proof. intros Hd. eapply sublist_NoDup; [done|apply filter_sublist]. Qed.

Lemma handle_valid_selection ev s :
  rendered ev -> valid_selection (selectedSections s) ->
  valid_selection (selectedSections (exec (handle ev s) s).1).
Proof.
  intros Hev [Hnd Hsub]. destruct ev as [o|o|id| | |net]; cbn [handle].
  - by rewrite (proj1 (handleFileSelect_frame o s)).
  - by rewrite (proj1 (handleDrop_frame o s)).
  - rewrite toggleSection_run. cbn [fst selectedSections].
    destruct (Array_includes (selectedSections s) id) eqn:Hin; cbn [negb].
    + split; [by apply filter_out_NoDup|].
      intros x [Hx _]%filter_out_spec. by apply Hsub.
    + assert (id ∉ selectedSections s) as Hout.
      { intros Hid%Array_includes_true. congruence. }
      split.
      * apply NoDup_app. split_and!; [done| |apply NoDup_singleton].
        intros x Hx ->%list_elem_of_singleton. done.
      * intros x [Hx| ->%list_elem_of_singleton]%elem_of_app;
          [by apply Hsub | exact Hev].
  - destruct s. split; [apply section_ids_NoDup|done].
  - destruct s. split; [apply NoDup_nil_2|]. intros x Hx.
    by apply elem_of_nil in Hx.
  - destruct (submit_disabled s); [by destruct s|].
    by rewrite handleSubmit_selection.
Qed.

Lemma run_valid_selection evs s :
  Forall rendered evs -> valid_selection (selectedSections s) ->
  valid_selection (selectedSections (run evs s).1).
Proof.
  revert s. induction evs as [|ev evs IH]; intros s Hevs Hs; [done|].
  apply Forall_cons in Hevs as [Hev Hevs]. cbn [run].
  pose proof (handle_valid_selection ev s Hev Hs) as Hstep.
  destruct (exec (handle ev s) s) as [s' tr]. cbn [fst] in Hstep.
  specialize (IH s' Hevs Hstep). by destruct (run evs s').
Qed.

(** X8. Whatever the user does on the upload form (picking or dropping
    files, clicking the rendered check boxes, Select All, Clear All,
    submitting), the selection holds offered section identifiers only and
    none of them twice, so it never has more than thirteen entries. *)
Theorem selection_stays_valid evs :
  Forall rendered evs ->
  let sel := selectedSections (run evs initial).1 in
  NoDup sel /\ (forall id, id ∈ sel -> id ∈ section_ids) /\ length sel <= 13.
Proof.
  intros Hevs sel.
  assert (valid_selection sel) as [Hnd Hsub].
  { apply run_valid_selection; [done|].
    split; [apply section_ids_NoDup|done]. }
  split_and!; [done|done|].
  change 13 with (length section_ids).
  apply submseteq_length, NoDup_submseteq; done.
Qed.
End UploadFormRuns.

Lemma selection_stays_valid_witness :
  let evs :=
    [ UploadForm.ClickCheckbox "bns"; UploadForm.ClickClearAll;
      UploadForm.ClickCheckbox "timeline"; UploadForm.ClickCheckbox "ndps";
      UploadForm.PickFile (Some sample_pdf);
      UploadForm.ClickSubmit accepted_reply ] in
  Forall UploadForm.rendered evs /\
  let sel :=
    UploadPage.selectedSections
      (@UploadForm.run identifier_json evs UploadPage.initial).1 in
  NoDup sel /\ (forall id, id ∈ sel -> id ∈ section_ids) /\ length sel <= 13.
Proof.
  intros evs.
  assert (Forall UploadForm.rendered evs) as Hevs.
  { repeat constructor;
      repeat first [ apply list_elem_of_here | apply list_elem_of_further ]. }
  split; [exact Hevs|].
  exact (@selection_stays_valid identifier_json evs Hevs).
Defined.

Section UploadFormSubmit.
Import UploadPage UploadForm.
Context `{JsonCodec}.

Lemma count_navigations_app tr tr' :
  count_navigations (tr ++ tr')
  = count_navigations tr + count_navigations tr'.
Proof. unfold count_navigations. by rewrite List.filter_app, length_app. Qed.

End UploadFormSubmit.

Section UploadInFlight.
Import UploadPage UploadSession.
Context `{JsonCodec}.

(** Cutting [handleSubmit] at its [await fetch] loses nothing: run
    without interruption, the two halves are the handler. *)
Lemma handleSubmit_suspended snap net s :
  handleSubmit snap net s
  = (sent ← submit_until_fetch snap;
     match sent with
     | Some _ => submit_after_fetch net
     | None => mret tt
     end) s.
Proof.
  destruct snap as [[f|] sel up err]; [|reflexivity].
  destruct sel as [|x sel]; [reflexivity|].
  destruct net as [e|[ok [e|[success wid detail]]]]; try reflexivity.
  destruct ok, success; reflexivity.
Qed.

Lemma step_uploading ev p n :
  uploading_bit (ui p) = pending p + n ->
  let r := step ev p in
  uploading_bit (ui r.1) = pending r.1 + n + count_navigations r.2.
Proof.
  intros Hinv. destruct p as [s k]. cbn [ui pending] in Hinv.
  destruct ev as [o|o|id| | | |net]; cbn [step ui pending].
  - destruct (handleFileSelect_frame o s) as (_ & Hup & Htr).
    destruct (exec (handleFileSelect o) s) as [s' tr].
    cbn [fst snd ui pending] in *. subst tr. unfold uploading_bit in *.
    rewrite Hup. destruct (isUploading s); cbn; lia.
  - destruct (handleDrop_frame o s) as (_ & Hup & Htr).
    destruct (exec (handleDrop o) s) as [s' tr].
    cbn [fst snd ui pending] in *. subst tr. unfold uploading_bit in *.
    rewrite Hup. destruct (isUploading s); cbn; lia.
  - rewrite toggleSection_run. destruct s as [f sel [|] err]; cbn in *; lia.
  - destruct s as [f sel [|] err]; cbn in *; lia.
  - destruct s as [f sel [|] err]; cbn in *; lia.
  - destruct s as [[f|] [|x sel] [|] err];
      unfold uploading_bit in *; cbv -[Nat.add] in *; lia.
  - destruct k as [|k]; [cbn; lia|].
    destruct s as [f sel [|] err];
      unfold uploading_bit in Hinv; cbn in Hinv; [|lia].
    destruct net as [e|[[|] [e|[[|] wid detail]]]];
      unfold uploading_bit; cbv -[Nat.add]; lia.
Qed.

Lemma run_uploading evs p n :
  uploading_bit (ui p) = pending p + n ->
  let r := run evs p in
  uploading_bit (ui r.1) = pending r.1 + n + count_navigations r.2.
Proof.
  revert p n. induction evs as [|ev evs IH]; intros p n Hinv.
  - cbn. lia.
  - cbn [run]. pose proof (step_uploading ev p n Hinv) as Hstep.
    destruct (step ev p) as [p' tr]. cbn [fst snd] in Hstep.
    rewrite <- Nat.add_assoc in Hstep. specialize (IH p' _ Hstep).
    destruct (run evs p') as [p'' tr'].
    cbn [fst snd] in *. rewrite count_navigations_app. lia.
Qed.

(** The state between the click and the answer: after a file is chosen
    and Submit is clicked, the request is out, [isUploading] is true and no
    navigation has been asked for. *)
Lemma upload_in_flight :
  let r := @run identifier_json [ PickFile (Some sample_pdf); ClickSubmit ]
             start in
  isUploading (ui r.1) = true /\ pending r.1 = 1 /\
  count_requests (fun _ => true) r.2 = 1 /\ count_navigations r.2 = 0.
Proof. split_and!; reflexivity. Qed.

(** X9. On the upload form, with a submission suspended at its
    [await fetch] until the fetch settles: [isUploading] is true exactly
    when a submission waits for its answer or a navigation to the results
    page has been requested. At most one submission waits at any time,
    none once a navigation has been requested, and no run of the form
    requests more than one navigation. *)
Theorem uploading_iff_pending_or_navigated evs :
  let r := run evs start in
  (isUploading (ui r.1) = true
   <-> pending r.1 = 1 \/ count_navigations r.2 = 1) /\
  pending r.1 + count_navigations r.2 <= 1.
Proof.
  intros r. pose proof (run_uploading evs start 0 eq_refl) as Hrun.
  fold r in Hrun. unfold uploading_bit in Hrun.
  destruct (isUploading (ui r.1)); (split; [split|]); try done; lia.
Qed.
End UploadInFlight.

Section UploadFormSelection.
Import UploadPage UploadForm.
Context `{JsonCodec}.

Lemma filter_out_absent (id : string) (sel : list string) :
  id ∉ sel -> List.filter (fun y => negb (String.eqb y id)) sel = sel.
Proof.
  induction sel as [|x sel IH]; [done|]. intros Hout.
  apply not_elem_of_cons in Hout as [Hne Hout]. cbn.
  destruct (String.eqb_spec x id); [congruence|]. cbn. by rewrite IH.
Qed.

Lemma filter_out_includes (id : string) (sel : list string) :
  Array_includes (List.filter (fun y => negb (String.eqb y id)) sel) id = false.
Proof.
  apply not_true_is_false. intros Hin%Array_includes_true.
  apply filter_out_spec in Hin as [_ Hne]. done.
Qed.

Lemma move_to_end_perm (id : string) (sel : list string) :
  NoDup sel -> id ∈ sel ->
  List.filter (fun y => negb (String.eqb y id)) sel ++ [id] ≡ₚ sel.
Proof.
  induction sel as [|x sel IH]; intros Hnd Hin.
  - by apply elem_of_nil in Hin.
  - apply NoDup_cons in Hnd as [Hx Hnd]. cbn.
    destruct (String.eqb_spec x id) as [->|Hne]; cbn.
    + rewrite filter_out_absent by done.
      by rewrite <- Permutation_cons_append.
    + apply elem_of_cons in Hin as [->|Hin]; [done|].
      constructor. by apply IH.
Qed.

(** X10. Clicking the same section check box twice: if the section was
    not selected, the selection is exactly what it was; if it was
    selected, the section ends up last in the selection, which otherwise
    keeps its order, so a duplicate-free selection keeps its members. *)
Theorem checkbox_double_click s id :
  let sel := selectedSections s in
  let sel2 := selectedSections (run [ClickCheckbox id; ClickCheckbox id] s).1 in
  (id ∉ sel -> sel2 = sel) /\
  (id ∈ sel ->
   sel2 = List.filter (fun y => negb (String.eqb y id)) sel ++ [id]) /\
  (id ∈ sel -> NoDup sel -> sel2 ≡ₚ sel).
Proof.
  intros sel sel2.
  assert (sel2 =
          if Array_includes sel id
          then List.filter (fun y => negb (String.eqb y id)) sel ++ [id]
          else sel) as Hsel2.
  { subst sel sel2. destruct s as [fl sel up err].
    cbn [run handle selectedSections].
    rewrite toggleSection_run. cbn [selectedSections].
    destruct (Array_includes sel id) eqn:Hin; cbn [negb].
    - rewrite toggleSection_run. cbn [selectedSections fst].
      rewrite filter_out_includes. reflexivity.
    - rewrite toggleSection_run. cbn [selectedSections fst].
      assert (Array_includes (sel ++ [id]) id = true) as ->.
      { apply Array_includes_true, elem_of_app. right.
        apply list_elem_of_here. }
      cbn [negb fst snd selectedSections]. rewrite List.filter_app.
      rewrite filter_out_absent.
      + cbn. rewrite String.eqb_refl. cbn. apply app_nil_r.
      + intros Hid%Array_includes_true. congruence. }
  split_and!.
  - intros Hout. rewrite Hsel2.
    destruct (Array_includes sel id) eqn:Hin; [|done].
    by apply Array_includes_true in Hin.
  - intros Hin. rewrite Hsel2.
    by apply Array_includes_true in Hin as ->.
  - intros Hin Hnd. rewrite Hsel2.
    pose proof Hin as ->%Array_includes_true.
    by apply move_to_end_perm.
Qed.

(** X11. When the submit button is enabled and the form is submitted, the
    button is enabled again afterwards exactly when the upload failed; and
    after a failure a second attempt behaves as a first attempt would: the
    same request, the same outcome for the same answer. *)
Theorem failed_upload_can_be_retried s net :
  submit_disabled s = false ->
  let r := exec (handleSubmit s net) s in
  (submit_disabled r.1 = false <-> upload_failed net) /\
  (upload_failed net ->
   forall net', exec (handleSubmit r.1 net') r.1 = exec (handleSubmit s net') s)
  /\ count_requests (fun _ => true) r.2 = 1.
Proof.
  destruct s as [[f|] sel [|] err]; try discriminate.
  destruct sel as [|x sel]; [discriminate|]. intros _ r.
  destruct net as [e|[ok [e|[success wid detail]]]].
  - split_and!; [done| |done].
    intros _ net'. reflexivity.
  - split_and!; [done| |done].
    intros _ net'. reflexivity.
  - destruct ok, success; cbn.
    + split_and!; [split; discriminate|discriminate|done].
    + split_and!; [done|intros _ net'; reflexivity|done].
    + split_and!; [done|intros _ net'; reflexivity|done].
    + split_and!; [done|intros _ net'; reflexivity|done].
Qed.

(** X12. A file the file input refuses, or a drop the drop zone refuses,
    leaves the earlier file selected and only sets an error message; a
    submit made afterwards uploads the earlier file exactly as it would
    have done before. *)
Theorem refused_file_keeps_earlier :
  (forall s f0 bad net,
     file s = Some f0 -> picker_refuses bad ->
     let s1 := (exec (handleFileSelect (Some bad)) s).1 in
     file s1 = Some f0 /\ is_Some (error s1) /\
     exec (handleSubmit s1 net) s1 = exec (handleSubmit s net) s) /\
  (forall s f0 o net,
     file s = Some f0 -> drop_refuses o ->
     let s1 := (exec (handleDrop o) s).1 in
     file s1 = Some f0 /\ is_Some (error s1) /\
     exec (handleSubmit s1 net) s1 = exec (handleSubmit s net) s).
Proof.
  split.
  - intros [fl sel up err] f0 bad net. cbn [file]. intros -> Hbad.
    rewrite handleFileSelect_run. cbn [file selectedSections
      isUploading].
    destruct (String.eqb_spec (File.type bad) "application/pdf") as [Hty|Hty];
      cbn [negb].
    + destruct (Z.ltb_spec MAX_SIZE (File.size bad)) as [Hsz|Hsz].
      * cbn [fst]. split_and!; [done|by eexists|reflexivity].
      * destruct Hbad; [done|lia].
    + cbn [fst]. split_and!; [done|by eexists|reflexivity].
  - intros [fl sel up err] f0 o net. cbn [file]. intros -> Hbad.
    destruct o as [f|].
    + rewrite handleDrop_run. cbn [file selectedSections isUploading].
      destruct (String.eqb_spec (File.type f) "application/pdf") as [Hty|Hty].
      * by destruct (Hbad f).
      * cbn [fst]. split_and!; [done|by eexists|reflexivity].
    + split_and!; [done|by eexists|reflexivity].
Qed.
End UploadFormSelection.

Lemma failed_upload_can_be_retried_witness :
  UploadPage.submit_disabled ready_to_upload = false /\
  let r := exec (@UploadPage.handleSubmit identifier_json ready_to_upload
                   server_error) ready_to_upload in
  (UploadPage.submit_disabled r.1 = false <-> upload_failed server_error) /\
  (upload_failed server_error ->
   forall net',
     exec (@UploadPage.handleSubmit identifier_json r.1 net') r.1
     = exec (@UploadPage.handleSubmit identifier_json ready_to_upload net')
            ready_to_upload) /\
  count_requests (fun _ => true) r.2 = 1.
Proof.
  split; [reflexivity|].
  exact (@failed_upload_can_be_retried identifier_json ready_to_upload
           server_error eq_refl).
Defined.

(** ** The results page: sections that can still be generated *)

Section AvailableSections.
Import ResultsPage.
Context `{JsonCodec}.

Lemma fmap_filter_comm {B C} (f : B -> C) (p : C -> bool) (l : list B) :
  f <$> List.filter (fun x => p (f x)) l = List.filter p (f <$> l).
Proof.
  induction l as [|x l IH]; [done|]. cbn.
  destruct (p (f x)); cbn; by rewrite IH.
Qed.

Lemma available_ids s :
  section_id <$> getAvailableSections s
  = List.filter (fun id => negb (Array_includes (existing_sections s) id))
      section_ids.
Proof.
  unfold getAvailableSections, section_ids.
  apply (fmap_filter_comm section_id
           (fun id => negb (Array_includes (existing_sections s) id))).
Qed.

Lemma available_ids_spec s id :
  id ∈ section_id <$> getAvailableSections s
  <-> id ∈ section_ids /\ id ∉ existing_sections s.
Proof.
  rewrite available_ids, list_elem_of_In, filter_In, negb_true_iff,
    <- list_elem_of_In.
  split; intros [Hid Hout]; (split; [done|]).
  - intros Hin%Array_includes_true. congruence.
  - apply not_true_is_false. intros Hin%Array_includes_true. done.
Qed.

(** X13. The sections offered under Generate Additional Sections are
    exactly the offered sections that the loaded workflow does not list
    as generated, in the order of the upload page and without repetition;
    none is left exactly when every offered section is already listed, and
    all thirteen are offered when the workflow lists none. *)
Theorem available_sections_partition s :
  let avail := section_id <$> getAvailableSections s in
  (forall id, id ∈ avail <-> id ∈ section_ids /\ id ∉ existing_sections s) /\
  sublist avail section_ids /\
  NoDup avail /\
  (avail = [] <-> forall id, id ∈ section_ids -> id ∈ existing_sections s) /\
  (existing_sections s = [] -> avail = section_ids).
Proof.
  intros avail.
  assert (sublist avail section_ids) as Hsub.
  { subst avail. rewrite available_ids. apply filter_sublist. }
  split_and!.
  - apply available_ids_spec.
  - done.
  - eapply sublist_NoDup; [apply section_ids_NoDup|done].
  - split.
    + intros Hnil id Hid.
      destruct (Array_includes (existing_sections s) id) eqn:Hin;
        [by apply Array_includes_true|].
      assert (id ∈ avail) as Hav; [|rewrite Hnil in Hav;
                                    by apply elem_of_nil in Hav].
      apply available_ids_spec. split; [done|].
      intros Hex%Array_includes_true. congruence.
    + intros Hall. apply elem_of_nil_inv. intros id Hid.
      apply available_ids_spec in Hid as [Hid Hout]. by apply Hout, Hall.
  - intros Hnone. subst avail. rewrite available_ids, Hnone. reflexivity.
Qed.

End AvailableSections.


(** ** The results page: generating sections, loading, downloading *)

Section ResultsHandlers.
Import ResultsPage.
Context `{JsonCodec}.

(** X15. When the upload call of Generate Sections is accepted and the
    refresh answers with a readable ok response, the page takes the fresh
    workflow state, closes the section picker, empties the selection of
    new sections and clears the error and [isGenerating]; it has sent the
    POST to /upload and then the GET of the results, and nothing else. *)
Theorem add_sections_success s w reply data :
  w <> "" -> selectedNewSections s <> [] ->
  UploadReply.success reply = true ->
  exec (handleAddSections s (Some w)
          (inr (mkResponse true (inr reply)))
          (inr (mkResponse true (inr data)))) s
  = (mkState (Some data) (loading s) None false [] false (isDownloading s),
     [ Fetch (mkRequest POST "/upload"
                [ ("sections",
                   FormString (JSON_stringify (selectedNewSections s)));
                  ("workflow_id", FormString w) ]);
       Fetch (mkRequest GET ("/api/results/" +:+ w) []) ]).
Proof.
  intros (a & w' & ->)%nonempty_string_cases.
  destruct s as [st ld err sh sel gen dl], reply as [success wid detail].
  cbn [selectedNewSections UploadReply.success]. intros Hsel ->.
  destruct sel as [|x sel]; [done|]. reflexivity.
Qed.

(** X16. When the upload call of Generate Sections is accepted but the
    refresh of the results answers with a failure status, the page shows
    nothing of it: the workflow state, the open picker and the selection
    stay as they were, the error is cleared, and [isGenerating] is false.
    If instead the refresh request throws or its body cannot be read, the
    network error message is set and the rest stays as it was. *)
Theorem add_sections_refresh_failure s w reply net_results :
  w <> "" -> selectedNewSections s <> [] ->
  UploadReply.success reply = true ->
  fetch_failed net_results ->
  let r := exec (handleAddSections s (Some w)
                   (inr (mkResponse true (inr reply))) net_results) s in
  r.1 = mkState (state s) (loading s)
          (match net_results with
           | inr (mkResponse false _) => None
           | _ => Some "Network error. Please check your connection and try again."
           end)
          (showAddSections s) (selectedNewSections s) false (isDownloading s)
  /\ count_requests (fun _ => true) r.2 = 2.
Proof.
  intros (a & w' & ->)%nonempty_string_cases.
  destruct s as [st ld err sh sel gen dl], reply as [success wid detail].
  cbn [selectedNewSections UploadReply.success]. intros Hsel -> Hfail.
  destruct sel as [|x sel]; [done|].
  destruct net_results as [e|[[|] [e|data]]]; try done; split; reflexivity.
Qed.

(** X17. Without a workflow id nothing is requested: the page-load effect
    and the download click do nothing at all (a freshly mounted page then
    keeps showing the loading screen), and Generate Sections only sets
    'Please select at least one section to generate', as it does for an
    empty selection. *)
Theorem no_workflow_id_no_request :
  (forall s w net,
     has_workflowId w = false -> exec (useEffect w net) s = (s, [])) /\
  (forall w net,
     has_workflowId w = false ->
     screen (exec (useEffect w net) initial).1 = LoadingScreen) /\
  (forall s w net,
     has_workflowId w = false -> exec (handleDownload s w net) s = (s, [])) /\
  (forall s w net_upload net_results,
     has_workflowId w = false \/ selectedNewSections s = [] ->
     exec (handleAddSections s w net_upload net_results) s
     = (mkState (state s) (loading s)
          (Some "Please select at least one section to generate")
          (showAddSections s) (selectedNewSections s) (isGenerating s)
          (isDownloading s), [])).
Proof.
  split_and!.
  - intros s w net Hw. unfold useEffect. rewrite Hw. by destruct s.
  - intros w net Hw. unfold useEffect. rewrite Hw. reflexivity.
  - intros s w net Hw. unfold handleDownload. rewrite Hw. by destruct s.
  - intros s w nu nr Hguard. unfold handleAddSections.
    assert (negb (has_workflowId w)
            || Nat.eqb (length (selectedNewSections s)) 0 = true) as ->.
    { destruct Hguard as [->| ->]; [done|]. apply orb_true_r. }
    by destruct s.
Qed.

(** X18. Loading the page with a workflow id, from the state a mounted page
    starts in: before the answer the loading screen is shown; afterwards
    it never is. A readable ok response shows the results of the fetched
    payload; a failure status shows the error 'Failed to fetch results'; a
    thrown fetch or an unreadable body shows the thrown error's message,
    or 'Failed to load results' when the thrown value is no Error, or
    'Results not found' when that message is empty. *)
Theorem page_load_screen w net :
  w <> "" ->
  let r := exec (useEffect (Some w) net) initial in
  screen initial = LoadingScreen /\
  loading r.1 = false /\
  screen r.1 =
    match net with
    | inr (mkResponse true (inr data)) => ResultsScreen data
    | inr (mkResponse false _) => ErrorScreen "Failed to fetch results"
    | inl e | inr (mkResponse true (inl e)) =>
        ErrorScreen
          (or_default
             (Some (if instanceof_Error e then message e
                    else "Failed to load results"))
             "Results not found")
    end.
Proof.
  intros (a & w' & ->)%nonempty_string_cases.
  destruct net as [e|[[|] [e|data]]]; split_and!; reflexivity.
Qed.

(** X19. A click on Generate Document never changes the state of the
    page, whatever the workflow id, the state and the answer of the
    server: afterwards every field, [isDownloading] included, is what it
    was before the click. *)
Theorem download_leaves_state s w net :
  (exec (handleDownload s w net) s).1 = s.
Proof.
  destruct s as [st ld err sh sel gen dl]. unfold handleDownload.
  cbn [isDownloading].
  destruct (has_workflowId w) eqn:Hw; cbn [negb orb]; [|reflexivity].
  destruct dl; [reflexivity|].
  destruct net as [e|[[|] [e|blob]]]; reflexivity.
Qed.

(** X20. A run of Generate Sections that passes its guard always ends with
    [isGenerating] false and leaves [loading] and [isDownloading] alone;
    it sends the POST to /upload first, and a second request (the refresh
    of the results) exactly when that call was accepted. *)
Theorem generate_sections_always_finishes s w net_upload net_results :
  w <> "" -> selectedNewSections s <> [] ->
  let r := exec (handleAddSections s (Some w) net_upload net_results) s in
  isGenerating r.1 = false /\
  loading r.1 = loading s /\
  isDownloading r.1 = isDownloading s /\
  head r.2 =
    Some (Fetch (mkRequest POST "/upload"
                   [ ("sections",
                      FormString (JSON_stringify (selectedNewSections s)));
                     ("workflow_id", FormString w) ])) /\
  count_requests (fun _ => true) r.2
  = match net_upload with
    | inr (mkResponse ok (inr reply)) =>
        if ok && UploadReply.success reply then 2 else 1
    | _ => 1
    end.
Proof.
  intros (a & w' & ->)%nonempty_string_cases.
  destruct s as [st ld err sh sel gen dl]. cbn [selectedNewSections].
  intros Hsel. destruct sel as [|x sel]; [done|].
  destruct net_upload as [e|[ok [e|[success wid detail]]]];
    try (split_and!; reflexivity).
  destruct ok, success; try (split_and!; reflexivity).
  destruct net_results as [e|[[|] [e|data]]]; split_and!; reflexivity.
Qed.
End ResultsHandlers.

Lemma add_sections_success_witness :
  "wf-1" <> "" /\
  ResultsPage.selectedNewSections loaded_two_sections <> [] /\
  exec (@ResultsPage.handleAddSections identifier_json loaded_two_sections
          (Some "wf-1") accepted_reply results_reply) loaded_two_sections
  = (ResultsPage.mkState (Some WorkflowState.empty) false None false [] false
       false,
     [ Fetch (mkRequest POST "/upload"
                [ ("sections", FormString (identifier_json ["bns"; "evidence"]));
                  ("workflow_id", FormString "wf-1") ]);
       Fetch (mkRequest GET "/api/results/wf-1" []) ]).
Proof.
  split; [discriminate|]. split; [discriminate|].
  apply (@add_sections_success identifier_json loaded_two_sections "wf-1"
           (UploadReply.mk true (Some "wf-1") None) WorkflowState.empty);
    [discriminate | discriminate | reflexivity].
Defined.

Lemma add_sections_refresh_failure_witness :
  "wf-1" <> "" /\
  ResultsPage.selectedNewSections loaded_two_sections <> [] /\
  fetch_failed (@server_error WorkflowState.t) /\
  let r := exec (@ResultsPage.handleAddSections identifier_json
                   loaded_two_sections (Some "wf-1") accepted_reply
                   server_error) loaded_two_sections in
  r.1 = ResultsPage.mkState (Some payload_two_sections) false None true
          ["bns"; "evidence"] false false /\
  count_requests (fun _ => true) r.2 = 2.
Proof.
  split; [discriminate|]. split; [discriminate|]. split; [exact I|].
  apply (@add_sections_refresh_failure identifier_json loaded_two_sections
           "wf-1" (UploadReply.mk true (Some "wf-1") None) server_error);
    [discriminate | discriminate | reflexivity | exact I].
Defined.

Lemma page_load_screen_witness :
  "wf-1" <> "" /\
  let r := exec (ResultsPage.useEffect (Some "wf-1") results_reply)
             ResultsPage.initial in
  ResultsPage.screen ResultsPage.initial = ResultsPage.LoadingScreen /\
  ResultsPage.loading r.1 = false /\
  ResultsPage.screen r.1 = ResultsPage.ResultsScreen WorkflowState.empty.
Proof.
  split; [discriminate|].
  apply (page_load_screen "wf-1" results_reply). discriminate.
Defined.

Lemma generate_sections_always_finishes_witness :
  "wf-1" <> "" /\
  ResultsPage.selectedNewSections loaded_two_sections <> [] /\
  let r := exec (@ResultsPage.handleAddSections identifier_json
                   loaded_two_sections (Some "wf-1") server_error
                   results_reply) loaded_two_sections in
  ResultsPage.isGenerating r.1 = false /\
  ResultsPage.loading r.1 = false /\
  ResultsPage.isDownloading r.1 = false /\
  head r.2 =
    Some (Fetch (mkRequest POST "/upload"
                   [ ("sections",
                      FormString (identifier_json ["bns"; "evidence"]));
                     ("workflow_id", FormString "wf-1") ])) /\
  count_requests (fun _ => true) r.2 = 1.
Proof.
  split; [discriminate|]. split; [discriminate|].
  apply (@generate_sections_always_finishes identifier_json
           loaded_two_sections "wf-1" server_error results_reply);
    discriminate.
Defined.

(** ** The stat cards *)

Section StatCards.
Import ResultsHeader WorkflowState.

Local Ltac split_conditions :=
  repeat match goal with
         | H : _ && _ = true |- _ => apply andb_true_iff in H as [? ?]
         | H : _ && _ = false |- _ => apply andb_false_iff in H
         | H : Z.ltb _ _ = true |- _ => apply Z.ltb_lt in H
         | H : Z.ltb _ _ = false |- _ => apply Z.ltb_ge in H
         | H : Array_includes _ _ = true |- _ =>
             apply Array_includes_true in H
         end.

Lemma statsToShow_cases st :
  statsToShow st =
  match stats st with
  | None => []
  | Some k =>
      let sel := default [] (sections st) in
      let card (shown : bool) label v :=
        if shown then [(label, v)] else [] in
      card (Array_includes sel "ndps" && Z.ltb 0 (Stats.ndps_count k))
           "NDPS" (Stats.ndps_count k)
      ++ card (Array_includes sel "bns" && Z.ltb 0 (Stats.bns_count k))
              "BNS" (Stats.bns_count k)
      ++ card (Array_includes sel "bnss" && Z.ltb 0 (Stats.bnss_count k))
              "BNSS" (Stats.bnss_count k)
      ++ card (Array_includes sel "bsa" && Z.ltb 0 (Stats.bsa_count k))
              "BSA" (Stats.bsa_count k)
      ++ card (Z.ltb 0 (Stats.next_steps_count k))
              "Next Steps" (Stats.next_steps_count k)
  end.
Proof. reflexivity. Qed.

(** X21. The stat cards: every card shows a count above zero, and the
    cards keep the order NDPS, BNS, BNSS, BSA, Next Steps. The Next Steps
    card appears exactly when its count is positive, whatever was
    selected; the NDPS card appears exactly when its count is positive
    and the workflow lists the ndps section. So a workflow without a
    [sections] field shows at most the Next Steps card, and a workflow
    without [stats] shows none. *)
Theorem stat_cards st :
  (forall label v, (label, v) ∈ statsToShow st -> (0 < v)%Z) /\
  sublist (fst <$> statsToShow st) ["NDPS"; "BNS"; "BNSS"; "BSA"; "Next Steps"]
  /\
  (stats st = None -> statsToShow st = []) /\
  (forall k,
     stats st = Some k ->
     (("Next Steps", Stats.next_steps_count k) ∈ statsToShow st
      <-> (0 < Stats.next_steps_count k)%Z) /\
     (("NDPS", Stats.ndps_count k) ∈ statsToShow st
      <-> (0 < Stats.ndps_count k)%Z /\
          exists sel, sections st = Some sel /\ "ndps" ∈ sel) /\
     (sections st = None ->
      statsToShow st =
      if Z.ltb 0 (Stats.next_steps_count k)
      then [("Next Steps", Stats.next_steps_count k)] else [])).
Proof.
  rewrite statsToShow_cases. split_and!.
  - intros label v. destruct (stats st) as [k|]; [|by intros ?%elem_of_nil].
    cbv zeta.
    destruct (Array_includes _ "ndps" && _) eqn:E1,
             (Array_includes _ "bns" && _) eqn:E2,
             (Array_includes _ "bnss" && _) eqn:E3,
             (Array_includes _ "bsa" && _) eqn:E4,
             (Z.ltb 0 (Stats.next_steps_count k)) eqn:E5;
      cbn [app]; split_conditions;
      rewrite ?elem_of_cons, elem_of_nil; intros Hin;
      destruct_or?; simplify_eq; done.
  - destruct (stats st) as [k|]; [|apply sublist_nil_l]. cbv zeta.
    destruct (Array_includes _ "ndps" && _),
             (Array_includes _ "bns" && _),
             (Array_includes _ "bnss" && _),
             (Array_includes _ "bsa" && _),
             (Z.ltb 0 (Stats.next_steps_count k));
      cbn; repeat first [ apply sublist_nil_l | apply sublist_skip; [] 
                        | apply sublist_cons ];
      repeat constructor.
  - intros ->. reflexivity.
  - intros k ->. cbv zeta. split_and!.
    + destruct (Array_includes _ "ndps" && _),
               (Array_includes _ "bns" && _),
               (Array_includes _ "bnss" && _),
               (Array_includes _ "bsa" && _),
               (Z.ltb_spec 0 (Stats.next_steps_count k));
        cbn [app]; rewrite ?elem_of_cons, elem_of_nil;
        split; try lia; try (intros _; tauto);
        intros Hin; destruct_or?; simplify_eq; done.
    + destruct (sections st) as [sel|]; cbn [from_option id].
      * destruct (Array_includes sel "ndps") eqn:Hin,
                 (Z.ltb_spec 0 (Stats.ndps_count k)); cbn [andb].
        -- split; [intros _|intros _; apply list_elem_of_here].
           split; [done|]. exists sel. split; [done|].
           by apply Array_includes_true.
        -- split; [|intros [? _]; lia].
           destruct (Array_includes sel "bns" && _),
                    (Array_includes sel "bnss" && _),
                    (Array_includes sel "bsa" && _),
                    (Z.ltb 0 (Stats.next_steps_count k));
             cbn [app]; rewrite ?elem_of_cons, elem_of_nil;
             intros Hin'; destruct_or?; simplify_eq; done.
        -- split.
           ++ destruct (Array_includes sel "bns" && _),
                       (Array_includes sel "bnss" && _),
                       (Array_includes sel "bsa" && _),
                       (Z.ltb 0 (Stats.next_steps_count k));
                cbn [app]; rewrite ?elem_of_cons, elem_of_nil;
                intros Hin'; destruct_or?; simplify_eq; done.
           ++ intros [_ (sel' & [= <-] & Hsel)].
              apply Array_includes_true in Hsel. congruence.
        -- split; [|intros [? _]; lia].
           destruct (Array_includes sel "bns" && _),
                    (Array_includes sel "bnss" && _),
                    (Array_includes sel "bsa" && _),
                    (Z.ltb 0 (Stats.next_steps_count k));
             cbn [app]; rewrite ?elem_of_cons, elem_of_nil;
             intros Hin'; destruct_or?; simplify_eq; done.
      * cbn. split; [|intros [_ (sel' & [=] & _)]].
        destruct (Z.ltb 0 (Stats.next_steps_count k));
          rewrite ?elem_of_cons, elem_of_nil;
          intros Hin'; destruct_or?; simplify_eq; done.
    + intros ->. reflexivity.
Qed.
End StatCards.

(** ** Tabs under a growing selection *)

Section TabsMonotone.
Import ResultsContent.

Lemma filter_sublist_impl {B} (f g : B -> bool) (l : list B) :
  (forall x, f x = true -> g x = true) ->
  sublist (List.filter f l) (List.filter g l).
Proof.
  intros Himpl. induction l as [|x l IH]; cbn; [constructor|].
  destruct (f x) eqn:Hf.
  - rewrite (Himpl x Hf). by constructor.
  - destruct (g x); [by constructor|done].
Qed.

Lemma tab_filter_no_selection sel tab :
  tab_filter sel tab = true -> tab_filter None tab = true.
Proof.
  unfold tab_filter. destruct (String.eqb (id tab) "fir-facts"); [done|].
  by destruct (condition tab).
Qed.

Lemma tab_filter_mono sel sel' tab :
  sel <> [] -> (forall x, x ∈ sel -> x ∈ sel') ->
  tab_filter (Some sel) tab = true -> tab_filter (Some sel') tab = true.
Proof.
  intros Hne Hsub. unfold tab_filter.
  destruct (String.eqb (id tab) "fir-facts"); [done|].
  destruct (condition tab); cbn [negb]; [|done].
  destruct sel as [|x sel]; [done|]. cbn [length Nat.eqb].
  destruct (Nat.eqb (length sel') 0); [done|].
  destruct (sectionId tab) as [s|]; [|done].
  destruct (negb (truthy_string s)); [done|].
  rewrite !Array_includes_true. apply Hsub.
Qed.

(** X22. A selection can only hide tabs: the tabs rendered under any
    selection are among those rendered without one, in the same order; an
    empty selection hides nothing; and enlarging a non-empty selection
    never removes a tab. *)
Theorem selection_only_hides_tabs st :
  (forall sel, sublist (rendered_tabs st sel) (rendered_tabs st None)) /\
  rendered_tabs st (Some []) = rendered_tabs st None /\
  (forall sel sel',
     sel <> [] -> (forall x, x ∈ sel -> x ∈ sel') ->
     sublist (rendered_tabs st (Some sel)) (rendered_tabs st (Some sel'))).
Proof.
  split_and!.
  - intros sel. unfold rendered_tabs, tabs.
    apply fmap_sublist, filter_sublist_impl. apply tab_filter_no_selection.
  - reflexivity.
  - intros sel sel' Hne Hsub. unfold rendered_tabs, tabs.
    apply fmap_sublist, filter_sublist_impl.
    intros tab. by apply tab_filter_mono.
Qed.
End TabsMonotone.
